(** * Topography cross-section: pixel mapping, line rasterisation, sampling

    A shallow embedding of [Topo_Xsection.py].  The script is a Streamlit
    page: it validates four coordinate strings, writes the uploaded raster
    to a temporary file, maps the two geographic points to pixels, draws a
    discrete line between them, samples the elevation grid along the line
    and exports the profile as a polyline.

    Conventions of the embedding:
    - Python integers are [Z]; array lengths are [nat].
    - Parsed coordinates are IEEE doubles, taken as [spec_float]; the
      arithmetic on them (line 79, the inverse of the transform and its
      application in [rowcol]) is binary64 arithmetic, rounded to nearest
      even at every operation.
    - The page's effects (messages, charts, temporary files) are explicit:
      a [world] threaded through a state-and-exception monad.
    - The calls into matplotlib, ezdxf, the file system and Streamlit's
      download button are fields of a record [library]: each returns or
      raises, and the properties of the page hold for every such record. *)

From Stdlib Require Import ZArith NArith Nnat List Lia Bool String Ascii.
From Stdlib Require Import QArith Qround.
From Stdlib Require Import DecimalString.
From Stdlib Require DecimalFacts DecimalPos.
From Stdlib Require Import Qabs Qpower.
From Stdlib Require Import Floats.SpecFloat.
Import ListNotations.
Open Scope Z_scope.
Open Scope list_scope.

(** ** Consecutive elements of a list *)

Section Chain.
Context {A : Type} (R : A -> A -> Prop).

Fixpoint chain (l : list A) : Prop :=
    match l with
    | [] => True
    | a :: l' =>
        match l' with
        | [] => True
        | b :: _ => R a b /\ chain l'
        end
    end.
End Chain.

(** ** [skimage.draw.line] *)

Module Draw.

Definition pixel : Type := Z * Z.

(** State of the generator: minor coordinate [r], major coordinate [c],
    decision variable [d] (the names of [_line], after its swap). *)
Record state := St { st_r : Z; st_c : Z; st_d : Z }.

Section Loop.
Variables (steep : bool) (sr sc dr dc : Z).

(** [while d >= 0: r = r + sr; d = d - (2 * dc)] *)
Fixpoint while_d (fuel : nat) (r d : Z) : Z * Z :=
  match fuel with
  | O => (r, d)
  | S k => if d >=? 0 then while_d k (r + sr) (d - 2 * dc) else (r, d)
  end.

(** Every turn of the inner loop lowers [d] by [2 * dc >= 2]. *)
Definition while_fuel (d : Z) : nat := Z.to_nat (d + 1).

(** One turn of [for i in range(dc)] after the point is stored. *)
Definition body (s : state) : state :=
  let '(r', d') := while_d (while_fuel (st_d s)) (st_r s) (st_d s) in
  St r' (st_c s + sc) (d' + 2 * dr).

(** [rr[i], cc[i]] as stored at the top of the turn. *)
Definition emit (s : state) : pixel :=
  if steep then (st_c s, st_r s) else (st_r s, st_c s).

Fixpoint for_i (n : nat) (s : state) : list pixel :=
  match n with
  | O => []
  | S k => emit s :: for_i k (body s)
  end.

(** State after [k] turns of the outer loop. *)
Definition after (k : nat) (s : state) : state := Nat.iter k body s.

(** The decision variable stays in a window of width [2 * dc]. *)
Definition window (s : state) : Prop :=
  2 * dr - 2 * dc <= st_d s < 2 * dr.

(** One turn moves the major coordinate by [sc] and the minor one by
    nothing or by [sr]; the latter only when [dr] is positive. *)
Definition next (s s' : state) : Prop :=
  st_c s' = st_c s + sc /\
  (st_r s' = st_r s \/ (st_r s' = st_r s + sr /\ 0 < dr)).
End Loop.

(** Modelled from the spec: the line rasteriser is [skimage.draw.line],
    a library routine whose code is not part of the repository; the spec
    names it a Bresenham line.  The definition follows the routine's loop
    ([_line]): signs, the steep swap, the decision variable, [dc] stored
    points and the end point written last into arrays of
    [max(dc, dr) + 1] entries.  Machine integers are taken without
    overflow. *)
Definition line_points (r0 c0 r1 c1 : Z) : list pixel :=
  let r := r0 in
  let c := c0 in
  let dr := Z.abs (r1 - r0) in
  let dc := Z.abs (c1 - c0) in
  let sc := if c1 - c >? 0 then 1 else -1 in
  let sr := if r1 - r >? 0 then 1 else -1 in
  let '(steep, r, c, dr, dc, sr, sc) :=
    if dr >? dc then (true, c, r, dc, dr, sc, sr)
    else (false, r, c, dr, dc, sr, sc) in
  let d := 2 * dr - dc in
  for_i steep sr sc dr dc (Z.to_nat dc) (St r c d) ++ [(r1, c1)].

(** [rr, cc = line(r0, c0, r1, c1)] *)
Definition line (r0 c0 r1 c1 : Z) : list Z * list Z :=
  let pts := line_points r0 c0 r1 c1 in
  (map fst pts, map snd pts).

(** The path of the page: the pixels [(rr[k], cc[k])] of the line from
    [p0] to [p1]. *)
Definition path (p0 p1 : pixel) : list pixel :=
  let '(rr, cc) := line (fst p0) (snd p0) (fst p1) (snd p1) in
  combine rr cc.

(** [x] to [y] goes the way [a] to [b] goes. *)
Definition toward (a b x y : Z) : Prop :=
  (a <= b -> x <= y) /\ (b <= a -> y <= x).

(** A step [p], [q] of a path from [p0] to [p1]: 8-connected, not a
    repetition, and not backward in either component. *)
Definition good_step (p0 p1 p q : pixel) : Prop :=
  Z.abs (fst q - fst p) <= 1 /\ Z.abs (snd q - snd p) <= 1 /\ p <> q /\
  toward (fst p0) (fst p1) (fst p) (fst q) /\
  toward (snd p0) (snd p1) (snd p) (snd q).

End Draw.

(** ** Exceptions raised inside the page

    The subclasses of [Exception], the ones [except Exception] catches. *)

Inductive exn :=
| ValueError            (* int(nan) *)
| OverflowError         (* int(inf), or a float square out of range *)
| IndexError            (* numpy index out of bounds, or index shapes differ *)
| RasterioIOError       (* rasterio.open cannot decode the file *)
| TransformNotInvertibleError (* ~transform on a degenerate transform *)
| Raised (name : string). (* any other exception a library call raises *)

(** ** numpy: a 2-D array indexed by two integer arrays

    [dem_data[rr, cc]] of line 47 is numpy's integer-array indexing: the
    two index arrays are read in step, every index is checked against
    its axis, and a negative index counts from the end of the axis. *)

Module Numpy.

(** An array of shape [(shape0, shape1)]; [item i j] is the sample of
    row [i], column [j], for [i < shape0] and [j < shape1]. *)
Record ndarray2 (A : Type) := Array2 {
  shape0 : nat;
  shape1 : nat;
  item : nat -> nat -> A
}.
Arguments Array2 {A}.
Arguments shape0 {A}.
Arguments shape1 {A}.
Arguments item {A}.

(** Index normalisation along an axis of length [n]: an index in
    [0, n) is used as it is, an index in [-n, 0) counts from the end,
    anything else is an IndexError. *)
Definition norm_index (n : nat) (i : Z) : option nat :=
  if (0 <=? i) && (i <? Z.of_nat n) then Some (Z.to_nat i)
  else if (- Z.of_nat n <=? i) && (i <? 0) then Some (Z.to_nat (i + Z.of_nat n))
  else None.

(** [a[r, c]] for scalars. *)
Definition getitem {A} (a : ndarray2 A) (r c : Z) : option A :=
  match norm_index (shape0 a) r, norm_index (shape1 a) c with
  | Some i, Some j => Some (item a i j)
  | _, _ => None
  end.

(** [a[rr, cc]] for two index arrays: element [k] of the result is
    [a[rr[k], cc[k]]].  [line] returns two arrays of one length; arrays
    of different lengths, which the page never builds, are given as an
    IndexError. *)
Fixpoint getitem_arrays {A} (a : ndarray2 A) (rr cc : list Z)
  : exn + list A :=
  match rr, cc with
  | [], [] => inr []
  | r :: rr', c :: cc' =>
      match getitem a r c, getitem_arrays a rr' cc' with
      | Some v, inr vs => inr (v :: vs)
      | _, _ => inl IndexError
      end
  | _, _ => inl IndexError
  end.

End Numpy.

(** [extract_cross_section(dem_data, start_pixel, end_pixel)] *)
Definition extract_cross_section {A} (dem_data : Numpy.ndarray2 A)
    (start_pixel end_pixel : Z * Z) : exn + list A :=
  let '(rr, cc) := Draw.line (fst start_pixel) (snd start_pixel)
                             (fst end_pixel) (snd end_pixel) in
  Numpy.getitem_arrays dem_data rr cc.

(** ** Python built-ins on floats and integers *)

Module Py.

(** [abs(x)] on a float. *)
Definition abs (x : spec_float) : spec_float := SFabs x.

(** [int(x)] on a float: truncation toward zero; NaN and the
    infinities raise. *)
Definition int (x : spec_float) : exn + Z :=
  match x with
  | S754_zero _ => inr 0
  | S754_infinity _ => inl OverflowError
  | S754_nan => inl ValueError
  | S754_finite s m e =>
      let a := if 0 <=? e then Z.pos m * 2 ^ e else Z.pos m / 2 ^ (- e) in
      inr (if s then - a else a)
  end.

(** [str(n)] on an integer. *)
Definition str (n : Z) : string := NilZero.string_of_int (Z.to_int n).

(** [len(s)] on a string. *)
Definition len (s : string) : nat := String.length s.

(** [round(n)] on an integer is the integer itself, and so is
    [int(n)]. *)
Definition round_int (n : Z) : Z := n.
Definition int_int (n : Z) : Z := n.

(** [enumerate(l)] *)
Fixpoint enumerate_from {A} (i : nat) (l : list A) : list (nat * A) :=
  match l with
  | [] => []
  | x :: l' => (i, x) :: enumerate_from (S i) l'
  end.
Definition enumerate {A} (l : list A) : list (nat * A) := enumerate_from 0 l.

(** Truth value of a string: non-empty. *)
Definition truthy (s : string) : bool :=
  match s with EmptyString => false | _ => true end.

End Py.

(** [get_integer_digits(num)]: [len(str(int(abs(float(num)))))]; [num]
    is a float already, so [float(num)] is [num]. *)
Definition get_integer_digits (num : spec_float) : exn + nat :=
  match Py.int (Py.abs num) with
  | inl e => inl e
  | inr n => inr (Py.len (Py.str n))
  end.

(** The list comprehension [[(i, elevation) for i, elevation in
    enumerate(elevation_values)]]. *)
Definition points {A} (elevation_values : list A) : list (nat * A) :=
  map (fun ie => (fst ie, snd ie)) (Py.enumerate elevation_values).


(** ** Python floats: binary64 arithmetic

    The coordinates are Python floats and the transform holds six of
    them; every operation on them is the IEEE 754 binary64 operation,
    rounded to nearest, ties to even. *)

Module B64.

Definition prec : Z := 53.
Definition emax : Z := 1024.

Definition add : spec_float -> spec_float -> spec_float := SFadd prec emax.
Definition sub : spec_float -> spec_float -> spec_float := SFsub prec emax.
Definition mul : spec_float -> spec_float -> spec_float := SFmul prec emax.
Definition div : spec_float -> spec_float -> spec_float := SFdiv prec emax.
Definition sqrt : spec_float -> spec_float := SFsqrt prec emax.
Definition opp : spec_float -> spec_float := SFopp.
Definition eqb : spec_float -> spec_float -> bool := SFeqb.

Definition zero : spec_float := S754_zero false.
Definition one : spec_float := S754_finite false 4503599627370496 (-52).

(** The largest integer not above a double that is a number. *)
Definition floor (x : spec_float) : option Z :=
  match x with
  | S754_zero _ => Some 0
  | S754_finite s m e =>
      let n := if s then Z.neg m else Z.pos m in
      Some (if 0 <=? e then n * 2 ^ e else n / 2 ^ (- e))
  | S754_infinity _ | S754_nan => None
  end.

(** [x ** 2] on a Python float: the square, and OverflowError when the
    square of a finite float is beyond the largest double. *)
Definition pow2 (x : spec_float) : exn + spec_float :=
  let y := mul x x in
  match x, y with
  | S754_finite _ _ _, S754_infinity _ => inl OverflowError
  | _, _ => inr y
  end.

End B64.

(** Line 79: [np.sqrt((end_x_val - start_x_val)**2
    + (end_y_val - start_y_val)**2)]. *)
Definition section_length
    (start_x_val start_y_val end_x_val end_y_val : spec_float)
  : exn + spec_float :=
  match B64.pow2 (B64.sub end_x_val start_x_val) with
  | inl e => inl e
  | inr dx2 =>
      match B64.pow2 (B64.sub end_y_val start_y_val) with
      | inl e => inl e
      | inr dy2 => inr (B64.sqrt (B64.add dx2 dy2))
      end
  end.

(** ** The affine transform of the raster *)

Module Affine.

(** The six coefficients of [affine.Affine]:
    [x = a * col + b * row + c], [y = d * col + e * row + f]. *)
Record affine := Aff {
  a : spec_float; b : spec_float; c : spec_float;
  d : spec_float; e : spec_float; f : spec_float
}.

Definition determinant (t : affine) : spec_float :=
  B64.sub (B64.mul (a t) (e t)) (B64.mul (b t) (d t)).

(** [t.determinant == 0.0] *)
Definition is_degenerate (t : affine) : bool :=
  B64.eqb (determinant t) B64.zero.

(** [~t]: the inverse transform; a degenerate transform raises. *)
Definition invert (t : affine) : exn + affine :=
  if is_degenerate t then inl TransformNotInvertibleError
  else
    let idet := B64.div B64.one (determinant t) in
    let ra := B64.mul (e t) idet in
    let rb := B64.mul (B64.opp (b t)) idet in
    let rd := B64.mul (B64.opp (d t)) idet in
    let re := B64.mul (a t) idet in
    inr (Aff ra rb
           (B64.sub (B64.mul (B64.opp (c t)) ra) (B64.mul (f t) rb))
           rd re
           (B64.sub (B64.mul (B64.opp (c t)) rd) (B64.mul (f t) re))).

(** [t * (vx, vy)] *)
Definition apply (t : affine) (vx vy : spec_float)
  : spec_float * spec_float :=
  (B64.add (B64.add (B64.mul vx (a t)) (B64.mul vy (b t))) (c t),
   B64.add (B64.add (B64.mul vx (d t)) (B64.mul vy (e t))) (f t)).

Definition identity : affine :=
  Aff B64.one B64.zero B64.zero B64.zero B64.one B64.zero.

End Affine.

(** ** [rasterio.transform.rowcol]

    A library routine: it applies the inverse transform to [(x, y)],
    which gives the fractional [(col, row)], and converts each component
    to a whole number with [op], by default the floor.  Since rasterio
    1.4 the whole number is stored as an int32; for a floor within int32
    this is the floor itself, as in the releases before. *)

Module Rasterio.

(** The fractional [(col, row)] of [(x, y)]: [~transform * (x, y)]. *)
Definition fractional (transform : Affine.affine) (x y : spec_float)
  : exn + (spec_float * spec_float) :=
  match Affine.invert transform with
  | inl e => inl e
  | inr inv => inr (Affine.apply inv x y)
  end.

Section Rowcol.

(** What the conversion makes of a double whose floor does not fit
    int32, of an infinity and of NaN depends on the release and on the
    platform (a wrapped or a saturated int32, the floor itself, an
    exception of [math.floor]); the embedding leaves it open. *)
Variable out_of_int32 : spec_float -> exn + Z.

(** [op] and the conversion to a whole number. *)
Definition floor_int32 (x : spec_float) : exn + Z :=
  match B64.floor x with
  | Some n =>
      if (- 2 ^ 31 <=? n) && (n <? 2 ^ 31) then inr n else out_of_int32 x
  | None => out_of_int32 x
  end.

(** [rowcol(transform, x, y)] with the default [op]. *)
Definition rowcol (transform : Affine.affine) (x y : spec_float)
  : exn + (Z * Z) :=
  match fractional transform x y with
  | inl e => inl e
  | inr (fcol, frow) =>
      match floor_int32 frow with
      | inl e => inl e
      | inr row =>
          match floor_int32 fcol with
          | inl e => inl e
          | inr col => inr (row, col)
          end
      end
  end.

End Rowcol.

End Rasterio.

(** [(int(round(row)), int(round(col)))] on the integers [rowcol]
    returned. *)
Definition round_pixel (rc : Z * Z) : Z * Z :=
  (Py.int_int (Py.round_int (fst rc)), Py.int_int (Py.round_int (snd rc))).

(** The coordinate-mapping step of the page, lines 98 to 103. *)
Definition to_pixel (out_of_int32 : spec_float -> exn + Z)
    (transform : Affine.affine) (x y : spec_float) : exn + (Z * Z) :=
  match Rasterio.rowcol out_of_int32 transform x y with
  | inl e => inl e
  | inr rc => inr (round_pixel rc)
  end.

(** Rounding to the nearest integer, as the specification words it:
    halves to the even neighbour, or halves away from zero. *)
Definition round_half_even (q : Q) : Z :=
  let fl := Qfloor q in
  let frac := (q - inject_Z fl)%Q in
  match (frac ?= 1 # 2)%Q with
  | Lt => fl
  | Gt => fl + 1
  | Eq => if Z.even fl then fl else fl + 1
  end.

Definition round_half_away (q : Q) : Z :=
  let fl := Qfloor q in
  let frac := (q - inject_Z fl)%Q in
  match (frac ?= 1 # 2)%Q with
  | Lt => fl
  | Gt => fl + 1
  | Eq => if 0 <=? fl then fl + 1 else fl
  end.

(** The exact value of a double that is a number. *)
Definition float_value (x : spec_float) : Q :=
  match x with
  | S754_finite s m e =>
      let v := (inject_Z (Z.pos m) * Qpower 2 e)%Q in
      if s then (- v)%Q else v
  | _ => 0%Q
  end.

(** ** The page: effects and the main processing block *)

Module Page.

Section Page.

(** Sample type of the raster band. *)
Variable elev : Type.

(** [float(value)]: [None] stands for ValueError. *)
Variable float_of_string : string -> option spec_float.

(** What [rasterio.open] decodes from the bytes of a file: band 1 and the
    transform, or nothing when the bytes are not a raster. *)
Variable read_raster :
  list Byte.byte -> option (Numpy.ndarray2 elev * Affine.affine).

(** A file of the temporary directory: a raster upload, a DXF drawing,
    or a file whose write raised (empty, or with a part of the data). *)
Inductive content :=
| Tif (bytes : list Byte.byte)
| Dxf (polyline : list (nat * elev))
| Unfinished.

(** What the page shows or touches, in order. *)
Inductive event :=
| St_info (msg : string)
| St_error (msg : string)
| St_error_processing (e : exn)
| St_write_length (x0 y0 x1 y1 : spec_float)
| St_write_pixel (label : string) (p : Z * Z)
| St_pyplot_dem
| St_pyplot_cross (elevation_values : list elev)
| Rasterio_open (path : nat)
| St_download_button (data : option content).

(** Temporary directory and what the page has done so far. *)
Record world := World {
  files : list (nat * content);
  log : list event
}.

(** The calls into the libraries that the page makes and the embedding
    does not look into.  Each one returns or raises; which, and with
    what exception, is the library's matter. *)
Record library := Library {
  (* rasterio.transform.rowcol(transform, x, y) *)
  rowcol : Affine.affine -> spec_float -> spec_float -> exn + (Z * Z);
  (* tempfile.NamedTemporaryFile(delete=False, suffix=...): the creation
     of the file *)
  create_temp : string -> exn + unit;
  (* tmp_file.write(uploaded_file.read()) *)
  write_upload : list Byte.byte -> exn + unit;
  (* plot_dem(dem_data, transform), st.pyplot, plt.close *)
  plot_dem : Numpy.ndarray2 elev -> Affine.affine -> exn + unit;
  (* plot_cross_section(elevation_values), st.pyplot, plt.close *)
  plot_cross_section : list elev -> exn + unit;
  (* ezdxf.new, doc.modelspace, msp.add_lwpolyline(points, ...) *)
  add_lwpolyline : list (nat * elev) -> exn + unit;
  (* doc.saveas(dxf_tmp.name) *)
  saveas : list (nat * elev) -> exn + unit;
  (* open(dxf_file_path, 'rb'), st.download_button(...) *)
  download_button : option content -> exn + unit;
  (* os.unlink(path) *)
  unlink : nat -> exn + unit
}.

Variable lib : library.

(** State and exceptions. *)
Definition M (X : Type) : Type := world -> (exn + X) * world.

Definition ret {X} (x : X) : M X := fun w => (inr x, w).

Definition bind {X Y} (m : M X) (k : X -> M Y) : M Y :=
  fun w =>
    match m w with
    | (inl e, w') => (inl e, w')
    | (inr x, w') => k x w'
    end.

Definition lift {X} (r : exn + X) : M X := fun w => (r, w).

(** [try: m except Exception as e: h e] *)
Definition try_except (m : M unit) (h : exn -> M unit) : M unit :=
  fun w =>
    match m w with
    | (inl e, w') => h e w'
    | (inr x, w') => (inr x, w')
    end.

Notation "x <- m ;; k" := (bind m (fun x => k))
  (at level 61, m at next level, right associativity).
Notation "' p <- m ;; k" := (bind m (fun x => match x with p => k end))
  (at level 61, p pattern, m at next level, right associativity).
Notation "m ;; k" := (bind m (fun _ => k))
  (at level 61, right associativity).

(** The text and chart calls of Streamlit, once reached, show. *)
Definition emit_event (ev : event) : M unit :=
  fun w => (inr tt, World (files w) (log w ++ [ev])).

(** A name no file of the directory has. *)
Definition fresh (fs : list (nat * content)) : nat :=
  S (list_max (map fst fs)).

(** [with tempfile.NamedTemporaryFile(delete=False, suffix=...) as t:
    write]: the file is created under a new name, written and kept on
    close; when the write raises, the file is kept as well
    ([delete=False]). *)
Definition named_temporary_file (suffix : string) (written : content)
    (write : exn + unit) : M nat :=
  fun w =>
    match create_temp lib suffix with
    | inl e => (inl e, w)
    | inr _ =>
        let p := fresh (files w) in
        match write with
        | inl e => (inl e, World ((p, Unfinished) :: files w) (log w))
        | inr _ => (inr p, World ((p, written) :: files w) (log w))
        end
    end.

Definition lookup (p : nat) (fs : list (nat * content)) : option content :=
  option_map snd (find (fun pc => Nat.eqb (fst pc) p) fs).

(** [os.unlink(path)] *)
Definition os_unlink (p : nat) : M unit :=
  fun w =>
    match unlink lib p with
    | inl e => (inl e, w)
    | inr _ =>
        (inr tt,
         World (filter (fun pc => negb (Nat.eqb (fst pc) p)) (files w))
               (log w))
    end.

(** [with rasterio.open(path) as src: src.read(1), src.transform] *)
Definition rasterio_open (p : nat)
  : M (Numpy.ndarray2 elev * Affine.affine) :=
  emit_event (Rasterio_open p) ;;
  fun w =>
    match lookup p (files w) with
    | Some (Tif bytes) =>
        match read_raster bytes with
        | Some r => (inr r, w)
        | None => (inl RasterioIOError, w)
        end
    | _ => (inl RasterioIOError, w)
    end.

(** [is_valid_coordinate(value, name)] *)
Definition is_valid_coordinate (value name : string)
  : M (option spec_float) :=
  match float_of_string value with
  | Some v => ret (Some v)
  | None =>
      emit_event (St_error (name ++ " must be a numeric value")%string) ;;
      ret None
  end.

(** The body of the [try], lines 88 to 136. *)
Definition try_body (tmp_file_path : nat)
    (start_x_val start_y_val end_x_val end_y_val : spec_float) : M unit :=
  '(dem_data, transform) <- rasterio_open tmp_file_path ;;
  lift (plot_dem lib dem_data transform) ;;
  emit_event St_pyplot_dem ;;
  start_rc <- lift (rowcol lib transform start_x_val start_y_val) ;;
  end_rc <- lift (rowcol lib transform end_x_val end_y_val) ;;
  let start_pixel := round_pixel start_rc in
  let end_pixel := round_pixel end_rc in
  emit_event (St_write_pixel "Start Pixel" start_pixel) ;;
  emit_event (St_write_pixel "End Pixel" end_pixel) ;;
  elevation_values <-
    lift (extract_cross_section dem_data start_pixel end_pixel) ;;
  lift (plot_cross_section lib elevation_values) ;;
  emit_event (St_pyplot_cross elevation_values) ;;
  lift (add_lwpolyline lib (points elevation_values)) ;;
  dxf_file_path <-
    named_temporary_file ".dxf" (Dxf (points elevation_values))
      (saveas lib (points elevation_values)) ;;
  (fun w =>
     let data := lookup dxf_file_path (files w) in
     (lift (download_button lib data) ;;
      emit_event (St_download_button data)) w) ;;
  os_unlink tmp_file_path ;;
  os_unlink dxf_file_path.

(** The branch of line 77 when the digit counts are equal, lines 78 to
    139. *)
Definition accepted (upload : list Byte.byte)
    (start_x_val start_y_val end_x_val end_y_val : spec_float) : M unit :=
  lift (section_length start_x_val start_y_val end_x_val end_y_val) ;;
  emit_event (St_write_length start_x_val start_y_val end_x_val end_y_val) ;;
  tmp_file_path <-
    named_temporary_file ".tif" (Tif upload) (write_upload lib upload) ;;
  try_except
    (try_body tmp_file_path start_x_val start_y_val end_x_val end_y_val)
    (fun e => emit_event (St_error_processing e)).

(** The main processing block, lines 60 to 146. *)
Definition main (uploaded_file : option (list Byte.byte))
    (start_x start_y end_x end_y : string) : M unit :=
  let all_inputs := forallb Py.truthy [start_x; start_y; end_x; end_y] in
  match uploaded_file, all_inputs with
  | Some upload, true =>
      start_x_val <- is_valid_coordinate start_x "Start Easting" ;;
      start_y_val <- is_valid_coordinate start_y "Start Northing" ;;
      end_x_val <- is_valid_coordinate end_x "End Easting" ;;
      end_y_val <- is_valid_coordinate end_y "End Northing" ;;
      match start_x_val, start_y_val, end_x_val, end_y_val with
      | Some sx, Some sy, Some ex, Some ey =>
          x_digits <- lift (get_integer_digits sx) ;;
          y_digits <- lift (get_integer_digits sy) ;;
          end_x_digits <- lift (get_integer_digits ex) ;;
          end_y_digits <- lift (get_integer_digits ey) ;;
          if Nat.eqb x_digits y_digits && Nat.eqb y_digits end_x_digits
             && Nat.eqb end_x_digits end_y_digits
          then accepted upload sx sy ex ey
          else
            emit_event (St_error
              "All coordinates must have the same number of digits in their integer parts.")
      | _, _, _, _ => ret tt
      end
  | _, _ =>
      match uploaded_file with
      | Some _ => ret tt
      | None => emit_event (St_info "Please upload a TIFF file.")
      end ;;
      (if all_inputs then ret tt
       else emit_event (St_info "Please provide all coordinate inputs."))
  end.

(** A run of the page on a directory [fs]. *)
Definition run (fs : list (nat * content))
    (uploaded_file : option (list Byte.byte))
    (start_x start_y end_x end_y : string) : (exn + unit) * world :=
  main uploaded_file start_x start_y end_x end_y (World fs []).

(** The action only adds to what the page has shown, and what it adds
    satisfies [P]. *)
Definition emits {X} (P : event -> Prop) (m : M X) : Prop :=
  forall w, exists l, log (snd (m w)) = log w ++ l /\ Forall P l.

(** The event is not a message of [st.error] with a text of the page. *)
Definition not_st_error (ev : event) : Prop :=
  forall msg, ev <> St_error msg.

(** The action leaves the files [S] in the directory, and what it
    returns satisfies [Q]. *)
Definition keeps {X} (S : list (nat * content)) (Q : X -> Prop) (m : M X)
  : Prop :=
  forall w, incl S (files w) ->
    incl S (files (snd (m w))) /\
    forall x, fst (m w) = inr x -> Q x.

(** The four integer-part digit counts exist and are one number. *)
Definition digits_agree (a b c d : spec_float) : Prop :=
  exists n : nat,
    get_integer_digits a = inr n /\ get_integer_digits b = inr n /\
    get_integer_digits c = inr n /\ get_integer_digits d = inr n.

End Page.

End Page.

(** ** Derived notions the properties are stated with *)

(** The sampling step on a path: [dem_data[rr, cc]] with [rr] the rows
    and [cc] the columns of the path. *)
Definition sample {A} (dem_data : Numpy.ndarray2 A) (path : list Draw.pixel)
  : exn + list A :=
  Numpy.getitem_arrays dem_data (map fst path) (map snd path).

(** The pixel lies in [[0, height) x [0, width)]. *)
Definition in_extent {A} (a : Numpy.ndarray2 A) (p : Draw.pixel) : Prop :=
  0 <= fst p < Z.of_nat (Numpy.shape0 a) /\
  0 <= snd p < Z.of_nat (Numpy.shape1 a).

(** The pixel lies in [[-height, height) x [-width, width)], the range
    numpy accepts. *)
Definition in_index_range {A} (a : Numpy.ndarray2 A) (p : Draw.pixel)
  : Prop :=
  - Z.of_nat (Numpy.shape0 a) <= fst p < Z.of_nat (Numpy.shape0 a) /\
  - Z.of_nat (Numpy.shape1 a) <= snd p < Z.of_nat (Numpy.shape1 a).

(** The pixel lies in the rectangle spanned by [p0] and [p1]. *)
Definition in_box (p0 p1 p : Draw.pixel) : Prop :=
  Z.min (fst p0) (fst p1) <= fst p <= Z.max (fst p0) (fst p1) /\
  Z.min (snd p0) (snd p1) <= snd p <= Z.max (snd p0) (snd p1).

(** Number of pixels of a line between two pixels. *)
Definition line_length (p0 p1 : Draw.pixel) : nat :=
  S (Z.to_nat (Z.max (Z.abs (fst p1 - fst p0)) (Z.abs (snd p1 - snd p0)))).

(** The line is steep: rows are its major axis. *)
Definition steep_line (p0 p1 : Draw.pixel) : bool :=
  Z.abs (fst p1 - fst p0) >? Z.abs (snd p1 - snd p0).

(** The float is a number: neither NaN nor an infinity. *)
Definition finite (x : spec_float) : bool :=
  match x with
  | S754_zero _ | S754_finite _ _ _ => true
  | S754_infinity _ | S754_nan => false
  end.

(** The integer part of the absolute value of a float. *)
Definition int_part (x : spec_float) : Z := Qfloor (Qabs (float_value x)).

(** [v] is written with [n] decimal digits; zero is written with one. *)
Definition decade (n : nat) (v : Z) : Prop :=
  10 ^ (Z.of_nat n - 1) <= Z.max 1 v < 10 ^ Z.of_nat n.

(** In a numeral given least significant digit first, the most
    significant digit is not zero. *)
Fixpoint top_nz (d : Decimal.uint) : Prop :=
  match d with
  | Decimal.Nil => False
  | Decimal.D0 d' => top_nz d'
  | Decimal.D1 d' | Decimal.D2 d' | Decimal.D3 d' | Decimal.D4 d'
  | Decimal.D5 d' | Decimal.D6 d' | Decimal.D7 d' | Decimal.D8 d'
  | Decimal.D9 d' => d' = Decimal.Nil \/ top_nz d'
  end.

(** The messages of [is_valid_coordinate] for the fields that are not
    numeric, in the order of the fields. *)
Definition field_errors (elev : Type)
    (float_of_string : string -> option spec_float)
    (fields : list (string * string)) : list (Page.event elev) :=
  flat_map
    (fun vn =>
       match float_of_string (fst vn) with
       | Some _ => []
       | None =>
           [Page.St_error elev (snd vn ++ " must be a numeric value")%string]
       end)
    fields.

(** The profile along a path that numpy accepts: the grid read at the
    wrapped positions. *)
Definition profile_of {A} (a : Numpy.ndarray2 A) (path : list Draw.pixel)
  : list A :=
  map (fun p =>
         Numpy.item a (Z.to_nat (fst p mod Z.of_nat (Numpy.shape0 a)))
                      (Z.to_nat (snd p mod Z.of_nat (Numpy.shape1 a))))
      path.

(** The four floats are numbers and the integer parts of their absolute
    values are written with one number of decimal digits. *)
Definition same_digit_count (a b c d : spec_float) : Prop :=
  finite a = true /\ finite b = true /\ finite c = true /\
  finite d = true /\
  exists n, decade n (int_part a) /\ decade n (int_part b) /\
            decade n (int_part c) /\ decade n (int_part d).

(** The message of line 141. *)
Definition digit_message (elev : Type) : Page.event elev :=
  Page.St_error elev
    "All coordinates must have the same number of digits in their integer parts.".

(** ** A concrete page, for the examples *)

Module Scenario.

(** The doubles nearest to the numerals of the examples. *)
Definition d12_5 : spec_float := S754_finite false 7036874417766400 (-49).
Definition d7_3 : spec_float := S754_finite false 8219069319951155 (-50).
Definition d100_1 : spec_float := S754_finite false 7043911292184166 (-46).
Definition d8_9 : spec_float := S754_finite false 5010254585449677 (-49).
Definition d34_2 : spec_float := S754_finite false 4813222101752218 (-47).
Definition d56_7 : spec_float := S754_finite false 7979815589747098 (-47).
Definition d78_9 : spec_float := S754_finite false 5552093915617690 (-46).
Definition d0_5 : spec_float := S754_finite false 1 (-1).
Definition d1_5 : spec_float := S754_finite false 3 (-1).
Definition d5_5 : spec_float := S754_finite false 11 (-1).
Definition dm0_5 : spec_float := S754_finite true 1 (-1).

Definition numerals : list (string * spec_float) :=
  [("12.5", d12_5); ("7.3", d7_3); ("100.1", d100_1); ("8.9", d8_9);
   ("34.2", d34_2); ("56.7", d56_7); ("78.9", d78_9);
   ("0.5", d0_5); ("1.5", d1_5); ("5.5", d5_5); ("-0.5", dm0_5);
   ("nan", S754_nan); ("inf", S754_infinity false)]%string.

(** [float(s)] on the numerals above; any other string is taken as not
    numeric. *)
Definition float_of_string (s : string) : option spec_float :=
  option_map snd (find (fun kv => String.eqb (fst kv) s) numerals).

(** A raster of two rows and two columns, sample [10 * row + col], with
    the identity transform. *)
Definition dem : Numpy.ndarray2 Z :=
  Numpy.Array2 2 2 (fun i j => Z.of_nat (10 * i + j)).

(** Bytes that open with the little-endian TIFF magic decode to [dem];
    anything else is not a raster. *)
Definition read_raster (bytes : list Byte.byte)
  : option (Numpy.ndarray2 Z * Affine.affine) :=
  match bytes with
  | Byte.x49 :: Byte.x49 :: Byte.x2a :: Byte.x00 :: _ =>
      Some (dem, Affine.identity)
  | _ => None
  end.

Definition upload : list Byte.byte := [Byte.x49; Byte.x49; Byte.x2a; Byte.x00].

(** Libraries whose calls all return; [rowcol] is the routine of
    rasterio, here with the least int32 for what does not fit. *)
Definition lib : Page.library Z :=
  Page.Library Z (Rasterio.rowcol (fun _ => inr (- 2 ^ 31)))
    (fun _ => inr tt) (fun _ => inr tt) (fun _ _ => inr tt) (fun _ => inr tt)
    (fun _ => inr tt) (fun _ => inr tt) (fun _ => inr tt) (fun _ => inr tt).

Definition run := Page.run Z float_of_string read_raster lib.

(** More doubles: 0.7, 0.1, 0.3 (the nearest doubles) and some whole
    numbers. *)
Definition d0_7 : spec_float := S754_finite false 6305039478318694 (-53).
Definition d0_1 : spec_float := S754_finite false 7205759403792794 (-56).
Definition d0_3 : spec_float := S754_finite false 5404319552844595 (-54).
Definition d3 : spec_float := S754_finite false 6755399441055744 (-51).
Definition dm3 : spec_float := S754_finite true 6755399441055744 (-51).
Definition d10 : spec_float := S754_finite false 5629499534213120 (-49).
Definition d25 : spec_float := S754_finite false 7036874417766400 (-48).
Definition d90 : spec_float := S754_finite false 6333186975989760 (-46).
(** [2.0 ** 512] and its opposite. *)
Definition d2p512 : spec_float := S754_finite false 4503599627370496 460.
Definition dm2p512 : spec_float := S754_finite true 4503599627370496 460.

End Scenario.


(** * Properties *)

(** ** The line *)

Lemma chain_cons {A} (R : A -> A -> Prop) a b l :
  chain R (a :: b :: l) <-> R a b /\ chain R (b :: l).
Proof. reflexivity. Qed.

Lemma chain_impl {A} (R S : A -> A -> Prop) l :
  (forall a b, R a b -> S a b) -> chain R l -> chain S l.
Proof.
  intros HRS. induction l as [|a l IH]; simpl; auto.
  destruct l as [|b l]; auto.
  intros [Hab Hl]. split; auto.
Qed.

Example line_flat : Draw.line 0 0 0 3 = ([0; 0; 0; 0], [0; 1; 2; 3]).
Proof. reflexivity. Qed.

Example line_back : Draw.line_points 2 5 0 0
  = [(2, 5); (2, 4); (1, 3); (1, 2); (0, 1); (0, 0)].
Proof. reflexivity. Qed.

Example line_steep : Draw.line_points 0 0 (-4) 1
  = [(0, 0); (-1, 0); (-2, 1); (-3, 1); (-4, 1)].
Proof. reflexivity. Qed.

Module DrawFacts.
Import Draw.

Section Normalised.
(** After the swap: [0 <= dr <= dc], the major coordinate is [c]. *)
Variables (steep : bool) (sr sc dr dc : Z).
Hypothesis Hdr : 0 <= dr <= dc.

Local Abbreviation window := (Draw.window dr dc).
Local Abbreviation after := (Draw.after sr sc dr dc).
Local Abbreviation next := (Draw.next sr sc dr).

Lemma while_d_neg fuel r d : d < 0 -> while_d sr dc fuel r d = (r, d).
Proof.
  intros Hd. destruct fuel as [|k]; cbn [while_d]; [reflexivity|].
  rewrite Z.geb_leb. destruct (Z.leb_spec 0 d); [lia | reflexivity].
Qed.

(** Inside the window the inner loop turns at most once, and it leaves
    with [d < 0]: the fuel is enough. *)
Lemma while_d_window r d :
  2 * dr - 2 * dc <= d < 2 * dr ->
  while_d sr dc (while_fuel d) r d
  = if d >=? 0 then (r + sr, d - 2 * dc) else (r, d).
Proof.
  intros Hw. rewrite Z.geb_leb. destruct (Z.leb_spec 0 d) as [Hd|Hd].
  - unfold while_fuel.
    replace (Z.to_nat (d + 1)) with (S (Z.to_nat d)) by lia.
    cbn [while_d]. rewrite Z.geb_leb. destruct (Z.leb_spec 0 d); [|lia].
    apply while_d_neg. lia.
  - apply while_d_neg. lia.
Qed.

Lemma body_window s :
  window s ->
  body sr sc dr dc s
  = (if st_d s >=? 0
     then St (st_r s + sr) (st_c s + sc) (st_d s - 2 * dc + 2 * dr)
     else St (st_r s) (st_c s + sc) (st_d s + 2 * dr))
  /\ window (body sr sc dr dc s).
Proof.
  intros Hw. unfold Draw.window in *. unfold body.
  rewrite (while_d_window _ _ Hw).
  rewrite Z.geb_leb. destruct (Z.leb_spec 0 (st_d s));
    cbn [st_d]; split; try reflexivity; lia.
Qed.

Lemma after_0 s : after 0 s = s.
Proof. reflexivity. Qed.

Lemma after_S k s : after (S k) s = after k (body sr sc dr dc s).
Proof. unfold Draw.after. now rewrite Nat.iter_succ_r. Qed.

Lemma after_window k s : window s -> window (after k s).
Proof.
  induction k as [|k IH]; intros Hw; simpl; auto.
  apply body_window. auto.
Qed.

Lemma body_next s : window s -> next s (body sr sc dr dc s).
Proof.
  intros Hw. destruct (body_window s Hw) as [-> _].
  unfold Draw.window in Hw. unfold Draw.next.
  rewrite Z.geb_leb.
  destruct (Z.leb_spec 0 (st_d s)); cbn [st_r st_c]; split; auto.
  right. split; auto. lia.
Qed.

Lemma for_i_length n s : List.length (for_i steep sr sc dr dc n s) = n.
Proof. revert s. induction n; simpl; intros; auto. Qed.

(** The stored points followed by the point of the state reached form
    a chain of turns. *)
Lemma for_i_chain n s :
  window s ->
  chain (fun p q => exists t t', p = emit steep t /\ q = emit steep t'
                                 /\ next t t')
        (for_i steep sr sc dr dc n s ++ [emit steep (after n s)]).
Proof.
  revert s. induction n as [|n IH]; intros s Hw.
  - simpl. exact I.
  - rewrite after_S. simpl.
    specialize (IH (body sr sc dr dc s) (proj2 (body_window s Hw))).
    destruct n as [|n].
    + simpl. split; auto. exists s, (body sr sc dr dc s).
      repeat split; auto; apply body_next; auto.
    + simpl in *. split; auto.
      exists s, (body sr sc dr dc s).
      repeat split; auto; apply body_next; auto.
Qed.

(** Closed form of the state: [m] minor moves after [k] turns. *)
Lemma after_closed k r0 c0 :
  0 < dc ->
  exists m,
    0 <= m /\
    st_r (after k (St r0 c0 (2 * dr - dc))) = r0 + sr * m /\
    st_c (after k (St r0 c0 (2 * dr - dc))) = c0 + sc * Z.of_nat k /\
    st_d (after k (St r0 c0 (2 * dr - dc)))
    = 2 * dr - dc + 2 * dr * Z.of_nat k - 2 * dc * m.
Proof.
  intros Hdc.
  assert (W0 : window (St r0 c0 (2 * dr - dc)))
    by (unfold Draw.window; cbn [st_d]; lia).
  induction k as [|k IH].
  - exists 0. rewrite after_0. cbn [st_r st_c st_d Z.of_nat].
    repeat split; lia.
  - destruct IH as (m & Hm & Hr & Hc & Hd).
    pose proof (after_window k _ W0) as Hw.
    change (after (S k) (St r0 c0 (2 * dr - dc)))
      with (body sr sc dr dc (after k (St r0 c0 (2 * dr - dc)))).
    destruct (body_window _ Hw) as [-> _].
    destruct (st_d (after k (St r0 c0 (2 * dr - dc))) >=? 0).
    + exists (m + 1). cbn [st_r st_c st_d]. rewrite Hr, Hc, Hd.
      repeat split; lia.
    + exists m. cbn [st_r st_c st_d]. rewrite Hr, Hc, Hd.
      repeat split; lia.
Qed.

(** After [dc] turns the generator stands on the end point. *)
Lemma after_end r0 c0 :
  0 < dc ->
  after (Z.to_nat dc) (St r0 c0 (2 * dr - dc))
  = St (r0 + sr * dr) (c0 + sc * dc)
       (st_d (after (Z.to_nat dc) (St r0 c0 (2 * dr - dc)))).
Proof.
  intros Hdc.
  assert (W0 : window (St r0 c0 (2 * dr - dc)))
    by (unfold Draw.window; cbn [st_d]; lia).
  pose proof (after_window (Z.to_nat dc) _ W0) as Hw.
  destruct (after_closed (Z.to_nat dc) r0 c0 Hdc) as (m & Hm & Hr & Hc & Hd).
  unfold Draw.window in Hw. rewrite Hd in Hw. rewrite Z2Nat.id in * by lia.
  assert (m = dr) by nia. subst m.
  destruct (after (Z.to_nat dc) (St r0 c0 (2 * dr - dc))) as [r c d].
  simpl in *. subst. reflexivity.
Qed.

End Normalised.
End DrawFacts.

Module LineFacts.
Import Draw.

Lemma combine_fst_snd {A B} (l : list (A * B)) :
  combine (map fst l) (map snd l) = l.
Proof. induction l as [|[x y] l IH]; simpl; congruence. Qed.

Lemma path_points p0 p1 :
  path p0 p1 = line_points (fst p0) (snd p0) (fst p1) (snd p1).
Proof. unfold path, line. apply combine_fst_snd. Qed.

Lemma line_points_length r0 c0 r1 c1 :
  List.length (line_points r0 c0 r1 c1)
  = S (Z.to_nat (Z.max (Z.abs (r1 - r0)) (Z.abs (c1 - c0)))).
Proof.
  unfold line_points.
  destruct (Z.gtb_spec (Z.abs (r1 - r0)) (Z.abs (c1 - c0)));
    rewrite length_app, DrawFacts.for_i_length; simpl; lia.
Qed.

(** The shallow case: the column is the major coordinate. *)
Lemma shallow_chain r0 c0 r1 c1 :
  Z.abs (r1 - r0) <= Z.abs (c1 - c0) ->
  chain (good_step (r0, c0) (r1, c1))
    (for_i false (if r1 - r0 >? 0 then 1 else -1)
       (if c1 - c0 >? 0 then 1 else -1)
       (Z.abs (r1 - r0)) (Z.abs (c1 - c0)) (Z.to_nat (Z.abs (c1 - c0)))
       (St r0 c0 (2 * Z.abs (r1 - r0) - Z.abs (c1 - c0))) ++ [(r1, c1)]).
Proof.
  intros Hle.
  set (sr := if r1 - r0 >? 0 then 1 else -1).
  set (sc := if c1 - c0 >? 0 then 1 else -1).
  set (dr := Z.abs (r1 - r0)). set (dc := Z.abs (c1 - c0)).
  assert (Hdr : 0 <= dr <= dc) by (unfold dr, dc in *; lia).
  destruct (Z.eq_dec dc 0) as [Hz|Hnz].
  - rewrite Hz. simpl. exact I.
  - assert (Hdc : 0 < dc) by lia.
    assert (Hsr : r0 + sr * dr = r1).
    { unfold sr, dr. destruct (Z.gtb_spec (r1 - r0) 0); lia. }
    assert (Hsc : c0 + sc * dc = c1).
    { unfold sc, dc. destruct (Z.gtb_spec (c1 - c0) 0); lia. }
    pose proof (DrawFacts.after_end sr sc dr dc Hdr r0 c0 Hdc) as Hend.
    assert (Hlast : (r1, c1)
              = emit false (after sr sc dr dc (Z.to_nat dc)
                              (St r0 c0 (2 * dr - dc)))).
    { rewrite Hend. unfold emit. cbn [st_r st_c]. congruence. }
    assert (Hw : window dr dc (St r0 c0 (2 * dr - dc)))
      by (unfold window; cbn [st_d]; lia).
    pose proof (DrawFacts.for_i_chain false sr sc dr dc Hdr
                  (Z.to_nat dc) _ Hw) as Hch.
    rewrite <- Hlast in Hch.
    eapply chain_impl; [|exact Hch].
    + intros p q (t & t' & -> & -> & Hc & Hr).
      unfold good_step, toward, emit. cbn [fst snd].
      assert (sr = 1 \/ sr = -1) by (unfold sr; destruct (r1 - r0 >? 0); auto).
      assert (0 < dr -> r0 <= r1 -> sr = 1).
      { unfold sr, dr. destruct (Z.gtb_spec (r1 - r0) 0); lia. }
      assert (0 < dr -> r1 <= r0 -> sr = -1).
      { unfold sr, dr. destruct (Z.gtb_spec (r1 - r0) 0); lia. }
      assert (c0 <= c1 -> sc = 1).
      { unfold sc, dc in *. destruct (Z.gtb_spec (c1 - c0) 0); lia. }
      assert (c1 <= c0 -> sc = -1).
      { unfold sc, dc in *. destruct (Z.gtb_spec (c1 - c0) 0); lia. }
      assert (sc = 1 \/ sc = -1) by (unfold sc; destruct (c1 - c0 >? 0); auto).
      repeat split; try lia.
      intros Heq. inversion Heq. lia.
Qed.

(** The steep case: the row is the major coordinate, and the stored
    points are swapped back. *)
Lemma steep_chain r0 c0 r1 c1 :
  Z.abs (c1 - c0) < Z.abs (r1 - r0) ->
  chain (good_step (r0, c0) (r1, c1))
    (for_i true (if c1 - c0 >? 0 then 1 else -1)
       (if r1 - r0 >? 0 then 1 else -1)
       (Z.abs (c1 - c0)) (Z.abs (r1 - r0)) (Z.to_nat (Z.abs (r1 - r0)))
       (St c0 r0 (2 * Z.abs (c1 - c0) - Z.abs (r1 - r0))) ++ [(r1, c1)]).
Proof.
  intros Hlt.
  set (sr := if r1 - r0 >? 0 then 1 else -1).
  set (sc := if c1 - c0 >? 0 then 1 else -1).
  set (dr := Z.abs (r1 - r0)). set (dc := Z.abs (c1 - c0)).
  assert (Hdc : 0 <= dc <= dr) by (unfold dr, dc in *; lia).
  assert (Hpos : 0 < dr) by (unfold dr, dc in *; lia).
  assert (Hsr : r0 + sr * dr = r1).
  { unfold sr, dr. destruct (Z.gtb_spec (r1 - r0) 0); lia. }
  assert (Hsc : c0 + sc * dc = c1).
  { unfold sc, dc. destruct (Z.gtb_spec (c1 - c0) 0); lia. }
  pose proof (DrawFacts.after_end sc sr dc dr Hdc c0 r0 Hpos) as Hend.
  assert (Hlast : (r1, c1)
            = emit true (after sc sr dc dr (Z.to_nat dr)
                           (St c0 r0 (2 * dc - dr)))).
  { rewrite Hend. unfold emit. cbn [st_r st_c]. congruence. }
  assert (Hw : window dc dr (St c0 r0 (2 * dc - dr)))
    by (unfold window; cbn [st_d]; lia).
  pose proof (DrawFacts.for_i_chain true sc sr dc dr Hdc
                (Z.to_nat dr) _ Hw) as Hch.
  rewrite <- Hlast in Hch.
  eapply chain_impl; [|exact Hch].
  - intros p q (t & t' & -> & -> & Hc & Hr).
    unfold good_step, toward, emit. cbn [fst snd].
    assert (sc = 1 \/ sc = -1) by (unfold sc; destruct (c1 - c0 >? 0); auto).
    assert (0 < dc -> c0 <= c1 -> sc = 1).
    { unfold sc, dc. destruct (Z.gtb_spec (c1 - c0) 0); lia. }
    assert (0 < dc -> c1 <= c0 -> sc = -1).
    { unfold sc, dc. destruct (Z.gtb_spec (c1 - c0) 0); lia. }
    assert (r0 <= r1 -> sr = 1).
    { unfold sr, dr in *. destruct (Z.gtb_spec (r1 - r0) 0); lia. }
    assert (r1 <= r0 -> sr = -1).
    { unfold sr, dr in *. destruct (Z.gtb_spec (r1 - r0) 0); lia. }
    assert (sr = 1 \/ sr = -1) by (unfold sr; destruct (r1 - r0 >? 0); auto).
    repeat split; try lia.
    intros Heq. inversion Heq. lia.
Qed.

Lemma line_points_chain r0 c0 r1 c1 :
  chain (good_step (r0, c0) (r1, c1)) (line_points r0 c0 r1 c1).
Proof.
  unfold line_points.
  destruct (Z.gtb_spec (Z.abs (r1 - r0)) (Z.abs (c1 - c0))).
  - apply steep_chain. lia.
  - apply shallow_chain. lia.
Qed.

End LineFacts.

Lemma nth_error_last {A} (l : list A) (x : A) :
  nth_error (l ++ [x]) (List.length (l ++ [x]) - 1) = Some x.
Proof.
  rewrite length_app. simpl.
  replace (List.length l + 1 - 1)%nat with (List.length l) by lia.
  rewrite nth_error_app2 by lia. now rewrite Nat.sub_diag.
Qed.

Lemma line_points_first r0 c0 r1 c1 :
  nth_error (Draw.line_points r0 c0 r1 c1) 0 = Some (r0, c0).
Proof.
  unfold Draw.line_points.
  destruct (Z.gtb_spec (Z.abs (r1 - r0)) (Z.abs (c1 - c0))) as [Hs|Hs].
  - destruct (Z.to_nat (Z.abs (r1 - r0))) eqn:E; [lia|]. reflexivity.
  - destruct (Z.to_nat (Z.abs (c1 - c0))) eqn:E; [|reflexivity].
    simpl. f_equal. f_equal; lia.
Qed.

Lemma line_points_single r c : Draw.line_points r c r c = [(r, c)].
Proof. unfold Draw.line_points. rewrite !Z.sub_diag. reflexivity. Qed.

(** C4: for all pixels [p0] and [p1] the path of the line has at least
    one element, starts with [p0] and ends with [p1]; the path from a
    pixel to itself is that pixel alone. *)
Theorem rasterize_endpoints (p0 p1 : Draw.pixel) :
  (1 <= List.length (Draw.path p0 p1))%nat /\
  nth_error (Draw.path p0 p1) 0 = Some p0 /\
  nth_error (Draw.path p0 p1) (List.length (Draw.path p0 p1) - 1) = Some p1 /\
  Draw.path p0 p0 = [p0].
Proof.
  destruct p0 as [r0 c0], p1 as [r1 c1].
  rewrite !LineFacts.path_points. cbn [fst snd].
  split; [rewrite LineFacts.line_points_length; lia|].
  split; [apply line_points_first|].
  split; [|apply line_points_single].
  unfold Draw.line_points.
  destruct (Z.abs (r1 - r0) >? Z.abs (c1 - c0)); apply nth_error_last.
Qed.

(** C5: in every octant, consecutive pixels of the path differ by at most
    one in the row and in the column, are never equal, and neither
    component ever moves away from the end pixel. *)
Theorem rasterize_steps (p0 p1 : Draw.pixel) :
  chain (Draw.good_step p0 p1) (Draw.path p0 p1).
Proof.
  destruct p0 as [r0 c0], p1 as [r1 c1].
  rewrite LineFacts.path_points. apply LineFacts.line_points_chain.
Qed.

(** C9: the path from [p0] to [p1] is as long as the path from [p1] to
    [p0]. *)
Theorem rasterize_length_swap (p0 p1 : Draw.pixel) :
  List.length (Draw.path p0 p1) = List.length (Draw.path p1 p0).
Proof.
  rewrite !LineFacts.path_points, !LineFacts.line_points_length. lia.
Qed.

Example path_octants :
  Draw.path (0, 0) (2, 5) = [(0, 0); (0, 1); (1, 2); (1, 3); (2, 4); (2, 5)]
  /\ Draw.path (0, 0) (-5, 2)
     = [(0, 0); (-1, 0); (-2, 1); (-3, 1); (-4, 2); (-5, 2)]
  /\ Draw.path (3, 3) (3, 0) = [(3, 3); (3, 2); (3, 1); (3, 0)]
  /\ Draw.path (3, 3) (0, 3) = [(3, 3); (2, 3); (1, 3); (0, 3)]
  /\ Draw.path (1, 1) (-2, -2) = [(1, 1); (0, 0); (-1, -1); (-2, -2)].
Proof. repeat split. Qed.

(** ** Sampling *)

Lemma extract_cross_section_sample {A} (dem_data : Numpy.ndarray2 A) p0 p1 :
  extract_cross_section dem_data p0 p1 = sample dem_data (Draw.path p0 p1).
Proof.
  unfold extract_cross_section, sample, Draw.path, Draw.line.
  now rewrite LineFacts.combine_fst_snd.
Qed.

Lemma norm_index_in n i :
  0 <= i < Z.of_nat n -> Numpy.norm_index n i = Some (Z.to_nat i).
Proof.
  intros H. unfold Numpy.norm_index.
  destruct (Z.leb_spec 0 i); [|lia].
  destruct (Z.ltb_spec i (Z.of_nat n)); [|lia]. reflexivity.
Qed.

Lemma norm_index_wrap n i :
  - Z.of_nat n <= i < Z.of_nat n ->
  Numpy.norm_index n i = Some (Z.to_nat (i mod Z.of_nat n)).
Proof.
  intros H. unfold Numpy.norm_index.
  destruct (Z.leb_spec 0 i); destruct (Z.ltb_spec i (Z.of_nat n));
    cbn [andb]; try lia.
  - now rewrite Z.mod_small by lia.
  - destruct (Z.leb_spec (- Z.of_nat n) i); [|lia].
    destruct (Z.ltb_spec i 0); [|lia]. cbn [andb].
    do 2 f_equal.
    rewrite <- (Z.mod_small (i + Z.of_nat n) (Z.of_nat n)) by lia.
    rewrite <- (Z.mod_add i 1 (Z.of_nat n)) by lia. f_equal. lia.
Qed.

Lemma norm_index_out n i :
  ~ (- Z.of_nat n <= i < Z.of_nat n) -> Numpy.norm_index n i = None.
Proof.
  intros H. unfold Numpy.norm_index.
  destruct (Z.leb_spec 0 i); destruct (Z.ltb_spec i (Z.of_nat n));
    cbn [andb]; try lia;
    destruct (Z.leb_spec (- Z.of_nat n) i); destruct (Z.ltb_spec i 0);
    cbn [andb]; try lia; reflexivity.
Qed.

Lemma getitem_wrap {A} (a : Numpy.ndarray2 A) r c :
  in_index_range a (r, c) ->
  Numpy.getitem a r c
  = Some (Numpy.item a (Z.to_nat (r mod Z.of_nat (Numpy.shape0 a)))
                       (Z.to_nat (c mod Z.of_nat (Numpy.shape1 a)))).
Proof.
  intros [Hr Hc]. cbn [fst snd] in *. unfold Numpy.getitem.
  now rewrite (norm_index_wrap _ _ Hr), (norm_index_wrap _ _ Hc).
Qed.

Lemma getitem_out {A} (a : Numpy.ndarray2 A) r c :
  ~ in_index_range a (r, c) -> Numpy.getitem a r c = None.
Proof.
  intros H. unfold Numpy.getitem.
  destruct (Numpy.norm_index (Numpy.shape0 a) r) eqn:Er; [|reflexivity].
  destruct (Numpy.norm_index (Numpy.shape1 a) c) eqn:Ec; [|reflexivity].
  exfalso. apply H. unfold in_index_range. cbn [fst snd]. split.
  - destruct (Z.le_gt_cases (- Z.of_nat (Numpy.shape0 a)) r);
      destruct (Z.lt_ge_cases r (Z.of_nat (Numpy.shape0 a))); try lia;
      rewrite norm_index_out in Er by lia; discriminate.
  - destruct (Z.le_gt_cases (- Z.of_nat (Numpy.shape1 a)) c);
      destruct (Z.lt_ge_cases c (Z.of_nat (Numpy.shape1 a))); try lia;
      rewrite norm_index_out in Ec by lia; discriminate.
Qed.

(** Sampling a path inside the index range: one value per pixel, in
    order, each read at the wrapped position. *)
Lemma sample_wrapped {A} (a : Numpy.ndarray2 A) (path : list Draw.pixel) :
  Forall (in_index_range a) path ->
  sample a path
  = inr (map (fun p =>
                Numpy.item a (Z.to_nat (fst p mod Z.of_nat (Numpy.shape0 a)))
                             (Z.to_nat (snd p mod Z.of_nat (Numpy.shape1 a))))
             path).
Proof.
  unfold sample. induction 1 as [|[r c] path Hp _ IH]; [reflexivity|].
  cbn [map fst snd Numpy.getitem_arrays].
  now rewrite (getitem_wrap a r c Hp), IH.
Qed.

Lemma sample_out {A} (a : Numpy.ndarray2 A) (path : list Draw.pixel) :
  Exists (fun p => ~ in_index_range a p) path ->
  sample a path = inl IndexError.
Proof.
  unfold sample. induction 1 as [[r c] path Hp|[r c] path _ IH].
  - cbn [map fst snd Numpy.getitem_arrays].
    now rewrite (getitem_out a r c Hp).
  - cbn [map fst snd Numpy.getitem_arrays]. rewrite IH.
    destruct (Numpy.getitem a r c); reflexivity.
Qed.

(** C6: when every pixel of the path lies within the extent of the grid,
    the indexing [dem_data[rr, cc]] of the sampling step returns a
    profile that has the length of the path and whose [i]-th value is
    the grid value at the [i]-th pixel; when the path is the line from
    [p0] to [p1], this profile is what [extract_cross_section] returns. *)
Theorem sample_in_extent {A} (a : Numpy.ndarray2 A) (path : list Draw.pixel) :
  Forall (in_extent a) path ->
  exists profile,
    Numpy.getitem_arrays a (map fst path) (map snd path) = inr profile /\
    List.length profile = List.length path /\
    (forall i p, nth_error path i = Some p ->
       nth_error profile i
       = Some (Numpy.item a (Z.to_nat (fst p)) (Z.to_nat (snd p)))) /\
    (forall p0 p1, path = Draw.path p0 p1 ->
       extract_cross_section a p0 p1 = inr profile).
Proof.
  intros Hin.
  assert (Hrange : Forall (in_index_range a) path).
  { eapply Forall_impl; [|exact Hin].
    unfold in_extent, in_index_range. intros p [? ?]. lia. }
  eexists. split; [apply (sample_wrapped a path Hrange)|].
  split; [apply length_map|]. split.
  - intros i p Hi. unfold Draw.pixel in *.
    rewrite nth_error_map, Hi. cbn [option_map].
    rewrite Forall_forall in Hin.
    destruct (Hin p (nth_error_In _ _ Hi)) as [Hr Hc].
    now rewrite !Z.mod_small by lia.
  - intros p0 p1 ->. rewrite extract_cross_section_sample.
    apply (sample_wrapped a _ Hrange).
Qed.

Lemma sample_in_extent_witness :
  Forall (in_extent Scenario.dem) (Draw.path (0, 0) (1, 1)) /\
  exists profile,
    Numpy.getitem_arrays Scenario.dem
      (map fst (Draw.path (0, 0) (1, 1))) (map snd (Draw.path (0, 0) (1, 1)))
    = inr profile /\
    List.length profile = List.length (Draw.path (0, 0) (1, 1)) /\
    (forall i p, nth_error (Draw.path (0, 0) (1, 1)) i = Some p ->
       nth_error profile i
       = Some (Numpy.item Scenario.dem
                 (Z.to_nat (fst p)) (Z.to_nat (snd p)))) /\
    (forall p0 p1, Draw.path (0, 0) (1, 1) = Draw.path p0 p1 ->
       extract_cross_section Scenario.dem p0 p1 = inr profile).
Proof.
  assert (H : Forall (in_extent Scenario.dem) (Draw.path (0, 0) (1, 1))).
  { repeat constructor; simpl; lia. }
  split; [exact H | apply (sample_in_extent Scenario.dem _ H)].
Defined.

Example extract_in_extent :
  extract_cross_section Scenario.dem (0, 0) (1, 1) = inr [0; 11] /\
  extract_cross_section Scenario.dem (1, 0) (0, 1) = inr [10; 1].
Proof. split; reflexivity. Qed.

(** C10: a pixel with a negative row in [[-h, 0)] or a negative column in
    [[-w, 0)] does not make the sampling step fail: for a path within
    [[-h, h) x [-w, w)] the indexing [dem_data[rr, cc]] returns a
    profile, and its [i]-th value is the grid value at
    [(row mod h, col mod w)]; when the path is the line from [p0] to
    [p1], this profile is what [extract_cross_section] returns. *)
Theorem sample_negative_wraps {A} (a : Numpy.ndarray2 A)
    (path : list Draw.pixel) :
  Forall (in_index_range a) path ->
  exists profile,
    Numpy.getitem_arrays a (map fst path) (map snd path) = inr profile /\
    List.length profile = List.length path /\
    (forall i p, nth_error path i = Some p ->
       nth_error profile i
       = Some (Numpy.item a
                 (Z.to_nat (fst p mod Z.of_nat (Numpy.shape0 a)))
                 (Z.to_nat (snd p mod Z.of_nat (Numpy.shape1 a))))) /\
    (forall p0 p1, path = Draw.path p0 p1 ->
       extract_cross_section a p0 p1 = inr profile).
Proof.
  intros Hrange.
  eexists. split; [apply (sample_wrapped a path Hrange)|].
  split; [apply length_map|]. split.
  - intros i p Hi. unfold Draw.pixel in *. now rewrite nth_error_map, Hi.
  - intros p0 p1 ->. rewrite extract_cross_section_sample.
    apply (sample_wrapped a _ Hrange).
Qed.

Lemma sample_negative_wraps_witness :
  Forall (in_index_range Scenario.dem) (Draw.path (-1, 0) (0, -2)) /\
  exists profile,
    Numpy.getitem_arrays Scenario.dem
      (map fst (Draw.path (-1, 0) (0, -2)))
      (map snd (Draw.path (-1, 0) (0, -2)))
    = inr profile /\
    List.length profile = List.length (Draw.path (-1, 0) (0, -2)) /\
    (forall i p, nth_error (Draw.path (-1, 0) (0, -2)) i = Some p ->
       nth_error profile i
       = Some (Numpy.item Scenario.dem
                 (Z.to_nat (fst p mod Z.of_nat (Numpy.shape0 Scenario.dem)))
                 (Z.to_nat (snd p mod Z.of_nat (Numpy.shape1 Scenario.dem))))) /\
    (forall p0 p1, Draw.path (-1, 0) (0, -2) = Draw.path p0 p1 ->
       extract_cross_section Scenario.dem p0 p1 = inr profile).
Proof.
  assert (H : Forall (in_index_range Scenario.dem)
                (Draw.path (-1, 0) (0, -2))).
  { repeat constructor; simpl; lia. }
  split; [exact H | apply (sample_negative_wraps Scenario.dem _ H)].
Defined.

Example extract_wraps :
  Draw.path (-1, 0) (0, -2) = [(-1, 0); (0, -1); (0, -2)] /\
  extract_cross_section Scenario.dem (-1, 0) (0, -2) = inr [10; 1; 0].
Proof. split; reflexivity. Qed.

(** The claim C2 fails on the page: the path from [(-1, 0)] to [(0, 0)]
    has a pixel whose row is outside [[0, 2)], and sampling the 2 x 2
    grid along it returns a profile. *)
Lemma sample_out_of_extent_returns :
  (exists p, In p (Draw.path (-1, 0) (0, 0)) /\ ~ in_extent Scenario.dem p) /\
  extract_cross_section Scenario.dem (-1, 0) (0, 0) = inr [10; 0].
Proof.
  split; [|reflexivity].
  exists (-1, 0). split; [left; reflexivity|].
  unfold in_extent. simpl. lia.
Qed.

(** ** Export points *)

Lemma enumerate_from_spec {A} (l : list A) k :
  List.length (Py.enumerate_from k l) = List.length l /\
  map fst (Py.enumerate_from k l) = seq k (List.length l) /\
  map snd (Py.enumerate_from k l) = l /\
  forall i v, nth_error l i = Some v ->
    nth_error (Py.enumerate_from k l) i = Some ((k + i)%nat, v).
Proof.
  revert k. induction l as [|x l IH]; intros k; simpl.
  - repeat split; auto. intros [|i] v; discriminate.
  - destruct (IH (S k)) as (Hlen & Hfst & Hsnd & Hnth).
    repeat split; try congruence.
    intros [|i] v; simpl.
    + intros [= ->]. now rewrite Nat.add_0_r.
    + intros Hi. rewrite (Hnth i v Hi). do 2 f_equal. lia.
Qed.

(** C8: a profile of length [n] gives [n] export points; their first
    components are [0, 1, ..., n - 1] in this order, their second
    components are the profile, and the [i]-th point is
    [(i, profile[i])]. *)
Theorem points_indexed {A} (profile : list A) :
  List.length (points profile) = List.length profile /\
  map fst (points profile) = seq 0 (List.length profile) /\
  map snd (points profile) = profile /\
  forall i v, nth_error profile i = Some v ->
    nth_error (points profile) i = Some (i, v).
Proof.
  assert (Hid : points profile = Py.enumerate profile).
  { unfold points. rewrite <- (map_id (Py.enumerate profile)) at 2.
    apply map_ext. intros [i v]. reflexivity. }
  rewrite Hid. unfold Py.enumerate.
  destruct (enumerate_from_spec profile 0) as (Hlen & Hfst & Hsnd & Hnth).
  repeat split; auto.
Qed.

Example points_constant :
  points [100; 100; 100] = [(0%nat, 100); (1%nat, 100); (2%nat, 100)].
Proof. reflexivity. Qed.

(** ** Coordinate mapping *)

(** C1 fails on the page.  The comment of line 101 announces a rounding
    to the nearest integer, but [rowcol] has floored the fractional row
    and column already, so [int(round(...))] acts on integers and keeps
    them.  Under the identity transform the point [(0.7, 0.7)] has the
    fractional row and column 0.7; the page gives the pixel [(0, 0)],
    rounding to nearest under either convention gives [(1, 1)]. *)
Lemma to_pixel_floors_not_rounds (out_of_int32 : spec_float -> exn + Z) :
  Rasterio.fractional Affine.identity Scenario.d0_7 Scenario.d0_7
  = inr (Scenario.d0_7, Scenario.d0_7) /\
  to_pixel out_of_int32 Affine.identity Scenario.d0_7 Scenario.d0_7
  = inr (0, 0) /\
  round_half_even (float_value Scenario.d0_7) = 1 /\
  round_half_away (float_value Scenario.d0_7) = 1.
Proof. repeat split; reflexivity. Qed.

(** The rounding of the page never changes what [rowcol] returned. *)
Lemma round_pixel_id (rc : Z * Z) : round_pixel rc = rc.
Proof. destruct rc. reflexivity. Qed.

Example rounding_conventions :
  map round_half_even [1 # 2; 3 # 2; 5 # 2; - (1 # 2); 7 # 10]%Q
  = [0; 2; 2; 0; 1] /\
  map round_half_away [1 # 2; 3 # 2; 5 # 2; - (1 # 2); 7 # 10]%Q
  = [1; 2; 3; -1; 1].
Proof. split; reflexivity. Qed.

(** Binary64 at work: with pixel size 3 and origin [(10, 90)] the point
    [(25, 90)] has the fractional column 4.999999999999999 and falls in
    column 4; with pixel size 0.1 the point [(0.3, 0.3)] falls in pixel
    [(3, 3)]. *)
Example to_pixel_binary64 (out_of_int32 : spec_float -> exn + Z) :
  to_pixel out_of_int32
           (Affine.Aff Scenario.d3 B64.zero Scenario.d10
                       B64.zero Scenario.dm3 Scenario.d90)
           Scenario.d25 Scenario.d90 = inr (0, 4) /\
  to_pixel out_of_int32
           (Affine.Aff Scenario.d0_1 B64.zero B64.zero
                       B64.zero Scenario.d0_1 B64.zero)
           Scenario.d0_3 Scenario.d0_3 = inr (3, 3).
Proof. split; reflexivity. Qed.

Example to_pixel_degenerate (out_of_int32 : spec_float -> exn + Z) :
  to_pixel out_of_int32
           (Affine.Aff B64.one B64.one B64.zero B64.one B64.one B64.zero)
           B64.one B64.one
  = inl TransformNotInvertibleError.
Proof. reflexivity. Qed.

(** * Further properties of the code *)

(** ** The line: length, indexing, bounding box *)

Lemma path_length_eq (p0 p1 : Draw.pixel) :
  List.length (Draw.path p0 p1) = line_length p0 p1.
Proof.
  rewrite LineFacts.path_points. apply LineFacts.line_points_length.
Qed.

(** X1: the line from [p0] to [p1] has [max(|dr|, |dc|) + 1] pixels, and
    [line] returns a row array and a column array of that one length. *)
Theorem line_arrays_length (r0 c0 r1 c1 : Z) :
  List.length (fst (Draw.line r0 c0 r1 c1)) = line_length (r0, c0) (r1, c1) /\
  List.length (snd (Draw.line r0 c0 r1 c1)) = line_length (r0, c0) (r1, c1) /\
  List.length (Draw.path (r0, c0) (r1, c1)) = line_length (r0, c0) (r1, c1).
Proof.
  unfold Draw.line. cbn [fst snd]. rewrite !length_map.
  rewrite LineFacts.line_points_length, path_length_eq. auto.
Qed.

Lemma nth_for_i steep sr sc dr dc n s k :
  (k < n)%nat ->
  nth_error (Draw.for_i steep sr sc dr dc n s) k
  = Some (Draw.emit steep (Draw.after sr sc dr dc k s)).
Proof.
  revert s k. induction n as [|n IH]; intros s k Hk; [lia|].
  destruct k as [|k]; [reflexivity|].
  cbn [Draw.for_i nth_error]. rewrite IH by lia.
  now rewrite DrawFacts.after_S.
Qed.

(** The [k]-th pixel of the generator, for a normalised line. *)
Lemma nth_major steep sr sc dr dc r0 c0 k p :
  0 <= dr <= dc -> 0 < dc ->
  nth_error (Draw.for_i steep sr sc dr dc (Z.to_nat dc)
               (Draw.St r0 c0 (2 * dr - dc))) k = Some p ->
  exists r, p = Draw.emit steep (Draw.St r (c0 + sc * Z.of_nat k) 0).
Proof.
  intros Hdr Hdc Hk.
  assert (Hlt : (k < Z.to_nat dc)%nat).
  { rewrite <- (DrawFacts.for_i_length steep sr sc dr dc (Z.to_nat dc)
                  (Draw.St r0 c0 (2 * dr - dc))).
    apply nth_error_Some. rewrite Hk. discriminate. }
  rewrite nth_for_i in Hk by exact Hlt.
  destruct (DrawFacts.after_closed sr sc dr dc Hdr k r0 c0 Hdc)
    as (m & _ & Hr & Hc & _).
  exists (r0 + sr * m).
  destruct (Draw.after sr sc dr dc k (Draw.St r0 c0 (2 * dr - dc)))
    as [r c d].
  cbn [Draw.st_r Draw.st_c] in Hr, Hc. subst r c.
  assert (Hp : p = Draw.emit steep (Draw.St (r0 + sr * m)
                                      (c0 + sc * Z.of_nat k) d))
    by congruence.
  rewrite Hp. unfold Draw.emit. destruct steep; reflexivity.
Qed.

Lemma nth_error_snoc {A} (l : list A) (x y : A) k :
  nth_error (l ++ [x]) k = Some y ->
  ((k < List.length l)%nat /\ nth_error l k = Some y)
  \/ (k = List.length l /\ y = x).
Proof.
  intros H. destruct (Nat.lt_ge_cases k (List.length l)) as [Hlt|Hge].
  - left. split; auto. now rewrite nth_error_app1 in H.
  - right. rewrite nth_error_app2 in H by lia.
    destruct (k - List.length l)%nat as [|j] eqn:E.
    + simpl in H. injection H as <-. split; auto. lia.
    + simpl in H. destruct j; discriminate.
Qed.

Lemma path_major (p0 p1 p : Draw.pixel) (k : nat) :
  nth_error (Draw.path p0 p1) k = Some p ->
  if steep_line p0 p1
  then fst p = fst p0 + Z.sgn (fst p1 - fst p0) * Z.of_nat k
  else snd p = snd p0 + Z.sgn (snd p1 - snd p0) * Z.of_nat k.
Proof.
  destruct p0 as [r0 c0], p1 as [r1 c1].
  rewrite LineFacts.path_points. unfold steep_line, Draw.line_points.
  cbn [fst snd].
  destruct (Z.gtb_spec (Z.abs (r1 - r0)) (Z.abs (c1 - c0))) as [Hs|Hs];
    intros Hk; apply nth_error_snoc in Hk;
    rewrite DrawFacts.for_i_length in Hk.
  - assert (Hsr : (if r1 - r0 >? 0 then 1 else -1) = Z.sgn (r1 - r0)).
    { destruct (Z.gtb_spec (r1 - r0) 0); lia. }
    destruct Hk as [[Hlt Hk]|[-> ->]].
    + apply nth_major in Hk; try lia.
      destruct Hk as [r ->]. cbn. rewrite Hsr. reflexivity.
    + cbn [fst]. rewrite Z2Nat.id by lia. lia.
  - destruct Hk as [[Hlt Hk]|[-> ->]].
    + assert (Hsc : (if c1 - c0 >? 0 then 1 else -1) = Z.sgn (c1 - c0)).
      { destruct (Z.gtb_spec (c1 - c0) 0); lia. }
      apply nth_major in Hk; try lia.
      destruct Hk as [r ->]. cbn. rewrite Hsc. reflexivity.
    + cbn [snd]. rewrite Z2Nat.id by lia. lia.
Qed.

(** X2: the line advances by one along its major axis at every pixel:
    the [k]-th pixel of a steep line is in row [r0 + sgn(r1 - r0) * k],
    the [k]-th pixel of any other line is in column
    [c0 + sgn(c1 - c0) * k]. *)
Theorem path_major_axis (p0 p1 p : Draw.pixel) (k : nat) :
  nth_error (Draw.path p0 p1) k = Some p ->
  if steep_line p0 p1
  then fst p = fst p0 + Z.sgn (fst p1 - fst p0) * Z.of_nat k
  else snd p = snd p0 + Z.sgn (snd p1 - snd p0) * Z.of_nat k.
Proof. apply path_major. Qed.

Lemma path_major_axis_witness :
  if steep_line (2, 5) (0, 0)
  then fst (1, 3) = fst (2, 5) + Z.sgn (fst (0, 0) - fst (2, 5)) * Z.of_nat 2
  else snd (1, 3) = snd (2, 5) + Z.sgn (snd (0, 0) - snd (2, 5)) * Z.of_nat 2.
Proof. apply (path_major_axis (2, 5) (0, 0) (1, 3) 2). reflexivity. Defined.

(** X3: no pixel occurs twice on the line: any two positions of the
    path hold different pixel coordinates. *)
Theorem path_NoDup (p0 p1 : Draw.pixel) : NoDup (Draw.path p0 p1).
Proof.
  apply NoDup_nth_error. intros i j Hi Hij.
  destruct (nth_error (Draw.path p0 p1) i) as [p|] eqn:Ei;
    [|apply nth_error_Some in Hi; contradiction].
  symmetry in Hij.
  assert (Hj : (j < List.length (Draw.path p0 p1))%nat).
  { apply nth_error_Some. rewrite Hij. discriminate. }
  pose proof (path_major p0 p1 p i Ei) as Mi.
  pose proof (path_major p0 p1 p j Hij) as Mj.
  rewrite path_length_eq in Hi, Hj. unfold line_length in Hi, Hj.
  unfold steep_line in Mi, Mj.
  destruct (Z.gtb_spec (Z.abs (fst p1 - fst p0)) (Z.abs (snd p1 - snd p0)));
    nia.
Qed.

Lemma last_default {A} (l : list A) (y x x' : A) :
  last (y :: l) x = last (y :: l) x'.
Proof.
  revert y. induction l as [|z l IH]; intros y; [reflexivity|].
  change (last (y :: z :: l) x) with (last (z :: l) x).
  change (last (y :: z :: l) x') with (last (z :: l) x').
  apply IH.
Qed.

(** A chain that never decreases stays between its first and last
    element. *)
Lemma chain_le_between {A} (f : A -> Z) (x : A) (l : list A) :
  chain (fun p q => f p <= f q) (x :: l) ->
  forall p, In p (x :: l) -> f x <= f p <= f (last (x :: l) x).
Proof.
  revert x. induction l as [|y l IH]; intros x Hch p Hin.
  - destruct Hin as [<-|[]]. simpl. lia.
  - destruct Hch as [Hxy Hch]. specialize (IH y Hch).
    assert (Hlast : last (x :: y :: l) x = last (y :: l) y)
      by apply (last_default l y x y).
    rewrite Hlast. destruct Hin as [<-|Hin].
    + pose proof (IH y (or_introl eq_refl)). lia.
    + pose proof (IH p Hin). lia.
Qed.

Lemma chain_ge_between {A} (f : A -> Z) (x : A) (l : list A) :
  chain (fun p q => f q <= f p) (x :: l) ->
  forall p, In p (x :: l) -> f (last (x :: l) x) <= f p <= f x.
Proof.
  intros Hch p Hin.
  assert (H : chain (fun p q => - f p <= - f q) (x :: l)).
  { eapply chain_impl; [|exact Hch]. simpl. intros. lia. }
  pose proof (chain_le_between (fun p => - f p) x l H p Hin). simpl in *. lia.
Qed.

Lemma line_points_shape r0 c0 r1 c1 :
  exists l, Draw.line_points r0 c0 r1 c1 = (r0, c0) :: l /\
            last ((r0, c0) :: l) (r0, c0) = (r1, c1).
Proof.
  pose proof (line_points_first r0 c0 r1 c1) as Hfirst.
  assert (Hlast : last (Draw.line_points r0 c0 r1 c1) (r0, c0) = (r1, c1)).
  { unfold Draw.line_points.
    destruct (Z.abs (r1 - r0) >? Z.abs (c1 - c0)); apply last_last. }
  destruct (Draw.line_points r0 c0 r1 c1) as [|q l]; [discriminate|].
  simpl in Hfirst. injection Hfirst as ->. exists l. auto.
Qed.

Lemma path_box (p0 p1 p : Draw.pixel) :
  In p (Draw.path p0 p1) -> in_box p0 p1 p.
Proof.
  destruct p0 as [r0 c0], p1 as [r1 c1].
  rewrite LineFacts.path_points. cbn [fst snd]. intros Hin.
  pose proof (LineFacts.line_points_chain r0 c0 r1 c1) as Hch.
  destruct (line_points_shape r0 c0 r1 c1) as (l & Hl & Hlast).
  rewrite Hl in Hin, Hch. unfold in_box. cbn [fst snd].
  assert (Hrow : Z.min r0 r1 <= fst p <= Z.max r0 r1).
  { destruct (Z.le_ge_cases r0 r1).
    - pose proof (chain_le_between fst (r0, c0) l) as B.
      rewrite Hlast in B. cbn [fst] in B.
      assert (Hc : chain (fun p q : Draw.pixel => fst p <= fst q)
                         ((r0, c0) :: l)).
      { eapply chain_impl; [|exact Hch].
        intros a b (_ & _ & _ & [Hup _] & _). cbn [fst] in Hup. auto. }
      specialize (B Hc p Hin). lia.
    - pose proof (chain_ge_between fst (r0, c0) l) as B.
      rewrite Hlast in B. cbn [fst] in B.
      assert (Hc : chain (fun p q : Draw.pixel => fst q <= fst p)
                         ((r0, c0) :: l)).
      { eapply chain_impl; [|exact Hch].
        intros a b (_ & _ & _ & [_ Hdn] & _). cbn [fst] in Hdn. auto. }
      specialize (B Hc p Hin). lia. }
  assert (Hcol : Z.min c0 c1 <= snd p <= Z.max c0 c1).
  { destruct (Z.le_ge_cases c0 c1).
    - pose proof (chain_le_between snd (r0, c0) l) as B.
      rewrite Hlast in B. cbn [snd] in B.
      assert (Hc : chain (fun p q : Draw.pixel => snd p <= snd q)
                         ((r0, c0) :: l)).
      { eapply chain_impl; [|exact Hch].
        intros a b (_ & _ & _ & _ & [Hup _]). cbn [snd] in Hup. auto. }
      specialize (B Hc p Hin). lia.
    - pose proof (chain_ge_between snd (r0, c0) l) as B.
      rewrite Hlast in B. cbn [snd] in B.
      assert (Hc : chain (fun p q : Draw.pixel => snd q <= snd p)
                         ((r0, c0) :: l)).
      { eapply chain_impl; [|exact Hch].
        intros a b (_ & _ & _ & _ & [_ Hdn]). cbn [snd] in Hdn. auto. }
      specialize (B Hc p Hin). lia. }
  auto.
Qed.

(** X4: every pixel of the line lies in the rectangle spanned by its
    two end pixels. *)
Theorem path_in_box (p0 p1 p : Draw.pixel) :
  In p (Draw.path p0 p1) -> in_box p0 p1 p.
Proof. apply path_box. Qed.

Lemma path_in_box_witness : in_box (2, 5) (0, 0) (1, 3).
Proof.
  apply (path_in_box (2, 5) (0, 0) (1, 3)).
  right. right. left. reflexivity.
Defined.

(** ** Sampling along the line *)

Lemma path_in_extent {A} (a : Numpy.ndarray2 A) (p0 p1 : Draw.pixel) :
  in_extent a p0 -> in_extent a p1 -> Forall (in_extent a) (Draw.path p0 p1).
Proof.
  intros [H0r H0c] [H1r H1c]. apply Forall_forall. intros p Hin.
  destruct (path_box p0 p1 p Hin) as [Hr Hc].
  unfold in_extent. lia.
Qed.

Lemma path_in_index_range {A} (a : Numpy.ndarray2 A) (p0 p1 : Draw.pixel) :
  in_index_range a p0 -> in_index_range a p1 ->
  Forall (in_index_range a) (Draw.path p0 p1).
Proof.
  intros [H0r H0c] [H1r H1c]. apply Forall_forall. intros p Hin.
  destruct (path_box p0 p1 p Hin) as [Hr Hc].
  unfold in_index_range. lia.
Qed.

(** X5: when the two end pixels lie within the extent of the grid,
    [extract_cross_section] cannot fail: it returns
    [max(|dr|, |dc|) + 1] values, the first read at the start pixel and
    the last at the end pixel. *)
Theorem extract_endpoints_in_extent {A} (a : Numpy.ndarray2 A)
    (p0 p1 : Draw.pixel) :
  in_extent a p0 -> in_extent a p1 ->
  exists profile,
    extract_cross_section a p0 p1 = inr profile /\
    List.length profile = line_length p0 p1 /\
    nth_error profile 0
    = Some (Numpy.item a (Z.to_nat (fst p0)) (Z.to_nat (snd p0))) /\
    nth_error profile (List.length profile - 1)
    = Some (Numpy.item a (Z.to_nat (fst p1)) (Z.to_nat (snd p1))).
Proof.
  intros H0 H1.
  pose proof (path_in_extent a p0 p1 H0 H1) as Hext.
  assert (Hrange : Forall (in_index_range a) (Draw.path p0 p1)).
  { eapply Forall_impl; [|exact Hext].
    unfold in_extent, in_index_range. intros p [? ?]. lia. }
  rewrite extract_cross_section_sample, (sample_wrapped a _ Hrange).
  eexists. split; [reflexivity|].
  rewrite length_map, path_length_eq. split; [reflexivity|].
  assert (Hfirst : nth_error (Draw.path p0 p1) 0 = Some p0).
  { destruct p0, p1. rewrite LineFacts.path_points. apply line_points_first. }
  assert (Hlast : nth_error (Draw.path p0 p1) (line_length p0 p1 - 1)
                  = Some p1).
  { rewrite <- path_length_eq. destruct p0 as [r0 c0], p1 as [r1 c1].
    rewrite LineFacts.path_points. unfold Draw.line_points. cbn [fst snd].
    destruct (Z.abs (r1 - r0) >? Z.abs (c1 - c0)); apply nth_error_last. }
  unfold Draw.pixel in *.
  rewrite !nth_error_map, Hfirst, Hlast. cbn [option_map].
  destruct H0 as [? ?], H1 as [? ?].
  now rewrite !Z.mod_small by lia.
Qed.

Lemma extract_endpoints_in_extent_witness :
  exists profile,
    extract_cross_section Scenario.dem (0, 1) (1, 0) = inr profile /\
    List.length profile = line_length (0, 1) (1, 0) /\
    nth_error profile 0
    = Some (Numpy.item Scenario.dem (Z.to_nat 0) (Z.to_nat 1)) /\
    nth_error profile (List.length profile - 1)
    = Some (Numpy.item Scenario.dem (Z.to_nat 1) (Z.to_nat 0)).
Proof.
  apply (extract_endpoints_in_extent Scenario.dem (0, 1) (1, 0));
    unfold in_extent; simpl; lia.
Defined.

Lemma in_index_range_dec {A} (a : Numpy.ndarray2 A) (p : Draw.pixel) :
  {in_index_range a p} + {~ in_index_range a p}.
Proof.
  unfold in_index_range.
  destruct (Z_le_dec (- Z.of_nat (Numpy.shape0 a)) (fst p));
    [|right; lia].
  destruct (Z_lt_dec (fst p) (Z.of_nat (Numpy.shape0 a))); [|right; lia].
  destruct (Z_le_dec (- Z.of_nat (Numpy.shape1 a)) (snd p));
    [|right; lia].
  destruct (Z_lt_dec (snd p) (Z.of_nat (Numpy.shape1 a))); [|right; lia].
  left. lia.
Qed.

(** X6: [extract_cross_section] fails exactly when some pixel of the
    line has a row outside [[-h, h)] or a column outside [[-w, w)], and
    the only exception it raises is IndexError. *)
Theorem extract_fails_iff {A} (a : Numpy.ndarray2 A) (p0 p1 : Draw.pixel)
    (e : exn) :
  extract_cross_section a p0 p1 = inl e
  <-> e = IndexError /\
      Exists (fun p => ~ in_index_range a p) (Draw.path p0 p1).
Proof.
  rewrite extract_cross_section_sample. split.
  - intros He.
    destruct (Forall_Exists_dec (in_index_range a) (in_index_range_dec a)
                (Draw.path p0 p1)) as [Hall|Hex].
    + rewrite (sample_wrapped a _ Hall) in He. discriminate.
    + rewrite (sample_out a _ Hex) in He. injection He as <-. auto.
  - intros [-> Hex]. now apply sample_out.
Qed.

(** X7: on a grid of one constant value, a line between two pixels that
    numpy accepts gives a profile of [max(|dr|, |dc|) + 1] copies of the
    value. *)
Theorem extract_constant_grid {A} (a : Numpy.ndarray2 A) (v : A)
    (p0 p1 : Draw.pixel) :
  (forall i j, Numpy.item a i j = v) ->
  in_index_range a p0 -> in_index_range a p1 ->
  extract_cross_section a p0 p1 = inr (repeat v (line_length p0 p1)).
Proof.
  intros Hv H0 H1.
  rewrite extract_cross_section_sample,
    (sample_wrapped a _ (path_in_index_range a p0 p1 H0 H1)).
  f_equal. rewrite <- path_length_eq.
  induction (Draw.path p0 p1) as [|p l IH]; [reflexivity|].
  cbn [map List.length repeat]. now rewrite Hv, IH.
Qed.

Lemma extract_constant_grid_witness :
  extract_cross_section (Numpy.Array2 10 10 (fun _ _ => 100)) (0, 0) (0, 9)
  = inr (repeat 100 (line_length (0, 0) (0, 9))).
Proof.
  apply (extract_constant_grid (Numpy.Array2 10 10 (fun _ _ => 100)) 100
           (0, 0) (0, 9)).
  - reflexivity.
  - unfold in_index_range. simpl. lia.
  - unfold in_index_range. simpl. lia.
Defined.

(** ** The digit count *)

Module DigitFacts.

Lemma of_lu_upper d :
  (DecimalPos.Unsigned.of_lu d < 10 ^ N.of_nat (Decimal.nb_digits d))%N.
Proof.
  induction d; cbn [DecimalPos.Unsigned.of_lu Decimal.nb_digits];
    rewrite ?Nat2N.inj_succ, ?N.pow_succ_r'; simpl N.of_nat; lia.
Qed.

Lemma top_nz_nonnil d : top_nz d -> d <> Decimal.Nil.
Proof. destruct d; simpl; intros H; [contradiction|discriminate..]. Qed.

Lemma nb_digits_pos d : d <> Decimal.Nil -> (1 <= Decimal.nb_digits d)%nat.
Proof. destruct d; simpl; intros H; [contradiction|lia..]. Qed.

Lemma top_nz_lower d :
  top_nz d ->
  (10 ^ N.of_nat (Decimal.nb_digits d - 1) <= DecimalPos.Unsigned.of_lu d)%N.
Proof.
  assert (Hstep : forall d',
    (1 <= Decimal.nb_digits d')%nat ->
    (10 ^ N.of_nat (Decimal.nb_digits d')
     = 10 * 10 ^ N.of_nat (Decimal.nb_digits d' - 1))%N).
  { intros d' H. rewrite <- N.pow_succ_r', <- Nat2N.inj_succ.
    f_equal. f_equal. lia. }
  induction d; cbn [top_nz]; intros H; [contradiction| |..];
    cbn [DecimalPos.Unsigned.of_lu Decimal.nb_digits];
    rewrite Nat.sub_succ, Nat.sub_0_r.
  1: { pose proof (nb_digits_pos d (top_nz_nonnil d H)).
       rewrite (Hstep d) by lia. specialize (IHd H). lia. }
  all: destruct H as [->|H];
    [simpl; lia
    | pose proof (nb_digits_pos d (top_nz_nonnil d H));
      rewrite (Hstep d) by lia; specialize (IHd H); lia].
Qed.

Lemma top_nz_double d :
  (top_nz d -> top_nz (Decimal.Little.double d)) /\
  (top_nz d \/ d = Decimal.Nil -> top_nz (Decimal.Little.succ_double d)).
Proof.
  induction d as [|d [IH1 IH2]|d [IH1 IH2]|d [IH1 IH2]|d [IH1 IH2]
                  |d [IH1 IH2]|d [IH1 IH2]|d [IH1 IH2]|d [IH1 IH2]
                  |d [IH1 IH2]|d [IH1 IH2]];
    cbn [top_nz Decimal.Little.double Decimal.Little.succ_double]; split;
    intros H;
    repeat match goal with
           | H : _ \/ _ |- _ => destruct H
           | H : False |- _ => contradiction
           | H : _ = Decimal.Nil |- _ => first [discriminate H | subst]
           end;
    cbn [top_nz Decimal.Little.double Decimal.Little.succ_double];
    auto.
Qed.

Lemma top_nz_to_little_uint p : top_nz (Pos.to_little_uint p).
Proof.
  induction p; cbn [Pos.to_little_uint].
  - apply top_nz_double. auto.
  - apply top_nz_double. auto.
  - left. reflexivity.
Qed.

Lemma of_lu_to_little_uint p :
  DecimalPos.Unsigned.of_lu (Pos.to_little_uint p) = N.pos p.
Proof.
  rewrite <- DecimalPos.Unsigned.of_lu_rev.
  apply DecimalPos.Unsigned.of_to.
Qed.

Lemma string_of_uint_length d :
  String.length (NilEmpty.string_of_uint d) = Decimal.nb_digits d.
Proof. induction d; simpl; congruence. Qed.

(** The length of [str(n)] for a positive [n]. *)
Lemma str_pos_length p :
  Py.len (Py.str (Z.pos p)) = Decimal.nb_digits (Pos.to_little_uint p).
Proof.
  unfold Py.len, Py.str. cbn [Z.to_int NilZero.string_of_int].
  unfold NilZero.string_of_uint.
  pose proof (DecimalPos.Unsigned.to_uint_nonnil p) as Hnn.
  destruct (Pos.to_uint p) eqn:E; [contradiction|..];
    rewrite <- E, string_of_uint_length; unfold Pos.to_uint;
    apply DecimalFacts.nb_digits_rev.
Qed.

Lemma str_decade v : 0 <= v -> decade (Py.len (Py.str v)) v.
Proof.
  intros Hv. unfold decade. destruct v as [|p|p]; [simpl; lia| |lia].
  rewrite str_pos_length.
  pose proof (of_lu_upper (Pos.to_little_uint p)) as U.
  pose proof (top_nz_lower _ (top_nz_to_little_uint p)) as L.
  pose proof (nb_digits_pos _ (top_nz_nonnil _ (top_nz_to_little_uint p))) as P.
  rewrite of_lu_to_little_uint in U, L.
  set (n := Decimal.nb_digits (Pos.to_little_uint p)) in *.
  apply N2Z.inj_lt in U. apply N2Z.inj_le in L.
  rewrite N2Z.inj_pow, nat_N_Z in U, L. simpl Z.of_N in U, L.
  replace (Z.of_nat (n - 1)) with (Z.of_nat n - 1) in L by lia.
  cbn [Z.of_N] in *. lia.
Qed.

Lemma decade_unique n n' v : decade n v -> decade n' v -> n = n'.
Proof.
  unfold decade. intros [L U] [L' U'].
  destruct (Nat.lt_trichotomy n n') as [H|[H|H]]; auto; exfalso.
  - assert (10 ^ Z.of_nat n <= 10 ^ (Z.of_nat n' - 1))
      by (apply Z.pow_le_mono_r; lia). lia.
  - assert (10 ^ Z.of_nat n' <= 10 ^ (Z.of_nat n - 1))
      by (apply Z.pow_le_mono_r; lia). lia.
Qed.

End DigitFacts.

Lemma Qpower_2_nonneg e : (0 <= inject_Z 2 ^ e)%Q.
Proof. apply Qpower_pos. discriminate. Qed.

Lemma Qfloor_scaled (m : positive) (e : Z) :
  Qfloor (inject_Z (Z.pos m) * inject_Z 2 ^ e)
  = if 0 <=? e then Z.pos m * 2 ^ e else Z.pos m / 2 ^ (- e).
Proof.
  destruct (Z.leb_spec 0 e) as [He|He].
  - rewrite <- (Qfloor_Z (Z.pos m * 2 ^ e)). apply Qfloor_comp.
    rewrite inject_Z_mult, Zpower_Qpower by exact He. reflexivity.
  - destruct e as [|k|k]; try lia.
    change (- Z.neg k) with (Z.pos k).
    assert (Hq : (inject_Z (Z.pos m) * inject_Z 2 ^ Z.neg k
                  == Z.pos m # (2 ^ k)%positive)%Q).
    { rewrite (Qmake_Qdiv (Z.pos m) (2 ^ k)). unfold Qdiv.
      apply Qmult_comp; [reflexivity|].
      change (Z.neg k) with (- Z.pos k). rewrite Qpower_opp.
      apply Qinv_comp. rewrite Pos2Z.inj_pow.
      rewrite Zpower_Qpower by lia. reflexivity. }
    rewrite (Qfloor_comp _ _ Hq). unfold Qfloor.
    now rewrite Pos2Z.inj_pow.
Qed.

(** [int(abs(x))] is the floor of the absolute value. *)
Lemma int_abs_int_part x :
  finite x = true -> Py.int (Py.abs x) = inr (int_part x).
Proof.
  destruct x as [s|s| |s m e]; try discriminate; intros _.
  - reflexivity.
  - unfold Py.abs, int_part, float_value. cbn [SFabs Py.int].
    f_equal. rewrite <- Qfloor_scaled. apply Qfloor_comp.
    assert (Hnn : (0 <= inject_Z (Z.pos m) * inject_Z 2 ^ e)%Q).
    { apply Qmult_le_0_compat; [discriminate | apply Qpower_2_nonneg]. }
    destruct s.
    + rewrite Qabs_opp. symmetry. now apply Qabs_pos.
    + symmetry. now apply Qabs_pos.
Qed.

Lemma int_part_nonneg x : 0 <= int_part x.
Proof.
  unfold int_part. rewrite <- (Qfloor_Z 0).
  apply Qfloor_resp_le. apply Qabs_nonneg.
Qed.

Lemma get_integer_digits_finite x :
  finite x = true ->
  get_integer_digits x = inr (Py.len (Py.str (int_part x))).
Proof.
  intros H. unfold get_integer_digits. now rewrite int_abs_int_part.
Qed.

Lemma get_integer_digits_not_finite x :
  finite x = false ->
  get_integer_digits x
  = inl (match x with S754_nan => ValueError | _ => OverflowError end).
Proof. destruct x; try discriminate; reflexivity. Qed.

Lemma get_integer_digits_inr (x : spec_float) (n : nat) :
  get_integer_digits x = inr n <-> finite x = true /\ decade n (int_part x).
Proof.
  destruct (finite x) eqn:F.
  - rewrite (get_integer_digits_finite x F).
    pose proof (DigitFacts.str_decade _ (int_part_nonneg x)) as D.
    split.
    + intros [= <-]. auto.
    + intros [_ Dn]. f_equal. eapply DigitFacts.decade_unique; eauto.
  - rewrite (get_integer_digits_not_finite x F). split.
    + discriminate.
    + intros [H _]. discriminate H.
Qed.

(** X10: [get_integer_digits] returns [n] exactly when the float is a
    number and the integer part [v] of its absolute value has [n]
    decimal digits, [10^(n-1) <= max(1, v) < 10^n]; on NaN it raises
    ValueError and on an infinity OverflowError. *)
Theorem get_integer_digits_decade (x : spec_float) :
  (forall n, get_integer_digits x = inr n
             <-> finite x = true /\ decade n (int_part x)) /\
  (forall e, get_integer_digits x = inl e
             <-> (x = S754_nan /\ e = ValueError)
                 \/ (exists s, x = S754_infinity s /\ e = OverflowError)).
Proof.
  split.
  - intros n. apply get_integer_digits_inr.
  - intros e. destruct x as [s|s| |s m e']; cbn; split;
      try discriminate;
      try (intros [[H _]|[s' [H _]]]; discriminate H).
    + intros [= <-]. right. eauto.
    + intros [[H _]|[s' [_ ->]]]; [discriminate H | reflexivity].
    + intros [= <-]. left. auto.
    + intros [[_ ->]|[s' [H _]]]; [reflexivity | discriminate H].
Qed.

Example decade_examples :
  decade 1 0 /\ decade 1 9 /\ decade 2 10 /\ decade 3 100 /\ ~ decade 2 100.
Proof. unfold decade. simpl. lia. Qed.

(** X11: four numeric coordinates pass the digit check exactly when the
    integer parts of their absolute values have one number of decimal
    digits; so two values on different sides of a power of ten, such as
    9.x and 10.x, never pass together. *)
Theorem digits_agree_decade (a b c d : spec_float) :
  Page.digits_agree a b c d
  <-> finite a = true /\ finite b = true /\ finite c = true /\
      finite d = true /\
      exists n, decade n (int_part a) /\ decade n (int_part b) /\
                decade n (int_part c) /\ decade n (int_part d).
Proof.
  unfold Page.digits_agree.
  pose proof get_integer_digits_inr as G.
  split.
  - intros (n & Ha & Hb & Hc & Hd).
    apply G in Ha, Hb, Hc, Hd.
    destruct Ha, Hb, Hc, Hd. repeat split; auto. exists n. auto.
  - intros (Fa & Fb & Fc & Fd & n & Da & Db & Dc & Dd).
    exists n. repeat split; apply G; auto.
Qed.

(** ** The page *)

Module PageFacts.
Import Page.

Section Facts.
Variable elev : Type.
Variable float_of_string : string -> option spec_float.
Variable read_raster :
  list Byte.byte -> option (Numpy.ndarray2 elev * Affine.affine).
Variable lib : library elev.

Local Abbreviation M := (Page.M elev).
Local Abbreviation world := (Page.world elev).
Local Abbreviation try_body := (Page.try_body elev read_raster lib).
Local Abbreviation accepted := (Page.accepted elev read_raster lib).
Local Abbreviation main := (Page.main elev float_of_string read_raster lib).
Local Abbreviation handler :=
  (fun e : exn => emit_event elev (St_error_processing elev e)).
Local Abbreviation unlinked :=
  (fun p => filter (fun pc : nat * content elev => negb (Nat.eqb (fst pc) p))).

(** *** What an action shows *)

Section Emits.
Variable P : event elev -> Prop.

Lemma emits_ret {X} (x : X) : emits elev P (ret elev x).
Proof. intros w. exists []. simpl. now rewrite app_nil_r. Qed.

Lemma emits_lift {X} (r : exn + X) : emits elev P (lift elev r).
Proof. intros w. exists []. simpl. now rewrite app_nil_r. Qed.

Lemma emits_emit ev : P ev -> emits elev P (emit_event elev ev).
Proof. intros Hev w. exists [ev]. simpl. auto. Qed.

Lemma emits_tmp sfx c wr :
  emits elev P (named_temporary_file elev lib sfx c wr).
Proof.
  intros w. exists []. unfold named_temporary_file.
  destruct (create_temp elev lib sfx); destruct wr; simpl;
    now rewrite app_nil_r.
Qed.

Lemma emits_unlink p : emits elev P (os_unlink elev lib p).
Proof.
  intros w. exists []. unfold os_unlink.
  destruct (unlink elev lib p); simpl; now rewrite app_nil_r.
Qed.

Lemma emits_bind {X Y} (m : M X) (k : X -> M Y) :
  emits elev P m -> (forall x, emits elev P (k x)) ->
  emits elev P (bind elev m k).
Proof.
  intros Hm Hk w. unfold bind. destruct (Hm w) as (l & Hl & Pl).
  destruct (m w) as [[e|x] w']; simpl in *.
  - now exists l.
  - destruct (Hk x w') as (l' & Hl' & Pl'). exists (l ++ l').
    rewrite Hl', Hl, app_assoc. split; auto. apply Forall_app. auto.
Qed.

Lemma emits_try (m : M unit) (h : exn -> M unit) :
  emits elev P m -> (forall e, emits elev P (h e)) ->
  emits elev P (try_except elev m h).
Proof.
  intros Hm Hh w. unfold try_except. destruct (Hm w) as (l & Hl & Pl).
  destruct (m w) as [[e|x] w']; simpl in *.
  - destruct (Hh e w') as (l' & Hl' & Pl'). exists (l ++ l').
    rewrite Hl', Hl, app_assoc. split; auto. apply Forall_app. auto.
  - now exists l.
Qed.

Lemma emits_rasterio_open p :
  P (Rasterio_open elev p) ->
  emits elev P (rasterio_open elev read_raster p).
Proof.
  intros HP. unfold rasterio_open.
  apply emits_bind; [now apply emits_emit|].
  intros _ w. exists [].
  destruct (lookup elev p (files elev w)) as [[bytes|pl|]|];
    try destruct (read_raster bytes); simpl; now rewrite app_nil_r.
Qed.

End Emits.

Ltac emits_step :=
  first
    [ apply emits_emit; intros msg; discriminate
    | apply emits_lift | apply emits_tmp | apply emits_unlink
    | apply emits_ret
    | apply emits_rasterio_open; intros msg; discriminate
    | apply emits_bind; [|intros ?] ].

(** The [try] body and its handler never show a message of the input
    checks. *)
Lemma emits_try_body p a b c d :
  emits elev (not_st_error elev) (try_body p a b c d).
Proof.
  unfold Page.try_body.
  apply emits_bind; [emits_step|]. intros [dem t].
  repeat emits_step.
  intros w.
  apply (emits_bind (not_st_error elev)
           (lift elev (download_button elev lib _))
           (fun _ => emit_event elev _)); [emits_step|].
  intros _. emits_step.
Qed.

Lemma emits_try_block p a b c d :
  emits elev (not_st_error elev)
    (try_except elev (try_body p a b c d) handler).
Proof.
  apply emits_try; [apply emits_try_body|].
  intros e. apply emits_emit. intros msg. discriminate.
Qed.

Lemma try_except_emit (m : M unit) (w : world) :
  let r := try_except elev m handler w in
  fst r = inr tt /\ files elev (snd r) = files elev (snd (m w)).
Proof.
  unfold try_except, emit_event.
  destruct (m w) as [[e|[]] w']; cbn; auto.
Qed.

(** *** The main block *)

Lemma lookup_head p cnt (fs : list (nat * content elev)) :
  lookup elev p ((p, cnt) :: fs) = Some cnt.
Proof. unfold lookup. simpl. now rewrite Nat.eqb_refl. Qed.

(** The main block once the four strings are numeric: the digit counts
    decide. *)
Lemma main_numeric upload sx sy ex ey a b c d (w : world) :
  forallb Py.truthy [sx; sy; ex; ey] = true ->
  float_of_string sx = Some a -> float_of_string sy = Some b ->
  float_of_string ex = Some c -> float_of_string ey = Some d ->
  main (Some upload) sx sy ex ey w
  = match get_integer_digits a with
    | inl e => (inl e, w)
    | inr n1 =>
    match get_integer_digits b with
    | inl e => (inl e, w)
    | inr n2 =>
    match get_integer_digits c with
    | inl e => (inl e, w)
    | inr n3 =>
    match get_integer_digits d with
    | inl e => (inl e, w)
    | inr n4 =>
        if Nat.eqb n1 n2 && Nat.eqb n2 n3 && Nat.eqb n3 n4
        then accepted upload a b c d w
        else
          (inr tt,
           World elev (files elev w) (log elev w ++ [digit_message elev]))
    end end end end.
Proof.
  intros Hall Ha Hb Hc Hd. unfold Page.main. rewrite Hall.
  unfold is_valid_coordinate. rewrite Ha, Hb, Hc, Hd.
  unfold bind, ret, lift.
  destruct (get_integer_digits a) as [e1|n1]; [reflexivity|].
  destruct (get_integer_digits b) as [e2|n2]; [reflexivity|].
  destruct (get_integer_digits c) as [e3|n3]; [reflexivity|].
  destruct (get_integer_digits d) as [e4|n4]; [reflexivity|].
  destruct (Nat.eqb n1 n2 && Nat.eqb n2 n3 && Nat.eqb n3 n4); reflexivity.
Qed.

(** The accepted branch: line 79, the message, the upload written to
    its temporary file, and the guarded body. *)
Lemma accepted_run upload a b c d (w : world) :
  accepted upload a b c d w
  = match section_length a b c d with
    | inl e => (inl e, w)
    | inr _ =>
        let shown := log elev w ++ [St_write_length elev a b c d] in
        let p := fresh elev (files elev w) in
        match create_temp elev lib ".tif" with
        | inl e => (inl e, World elev (files elev w) shown)
        | inr _ =>
            match write_upload elev lib upload with
            | inl e =>
                (inl e,
                 World elev ((p, Unfinished elev) :: files elev w) shown)
            | inr _ =>
                try_except elev (try_body p a b c d) handler
                  (World elev ((p, Tif elev upload) :: files elev w) shown)
            end
        end
    end.
Proof.
  unfold Page.accepted, bind, lift, emit_event, named_temporary_file.
  destruct (section_length a b c d) as [e|len]; [reflexivity|].
  cbn [files log].
  destruct (create_temp elev lib ".tif") as [e|[]]; [reflexivity|].
  destruct (write_upload elev lib upload) as [e|[]]; reflexivity.
Qed.

(** The [try] body up to a failing sampling step: the raster is opened
    and drawn, the two pixels are written, and the exception leaves the
    body; nothing is deleted. *)
Lemma try_body_sampling_fails p bytes dem t a b c d rc0 rc1 e
    (w : world) :
  lookup elev p (files elev w) = Some (Tif elev bytes) ->
  read_raster bytes = Some (dem, t) ->
  plot_dem elev lib dem t = inr tt ->
  rowcol elev lib t a b = inr rc0 ->
  rowcol elev lib t c d = inr rc1 ->
  extract_cross_section dem (round_pixel rc0) (round_pixel rc1) = inl e ->
  try_body p a b c d w
  = (inl e,
     World elev (files elev w)
       (log elev w ++
        [Rasterio_open elev p; St_pyplot_dem elev;
         St_write_pixel elev "Start Pixel" (round_pixel rc0);
         St_write_pixel elev "End Pixel" (round_pixel rc1)])).
Proof.
  intros Hfile Hread Hplot H0 H1 Hx.
  unfold Page.try_body, rasterio_open, bind, emit_event, lift.
  cbn [files log]. rewrite Hfile, Hread, Hplot, H0, H1, Hx.
  cbn [files log]. now rewrite <- !app_assoc.
Qed.

(** *** Temporary files *)

Lemma fresh_gt (fs : list (nat * content elev)) q c :
  In (q, c) fs -> (q < fresh elev fs)%nat.
Proof.
  intros Hin. unfold fresh.
  assert (H : Forall (fun k => (k <= list_max (map fst fs))%nat) (map fst fs))
    by (apply list_max_le; lia).
  rewrite Forall_forall in H.
  specialize (H q (in_map fst _ _ Hin)). lia.
Qed.

Lemma unlinked_above (fs : list (nat * content elev)) p :
  (forall q c, In (q, c) fs -> (q < p)%nat) -> unlinked p fs = fs.
Proof.
  induction fs as [|[q c] fs IH]; intros H; [reflexivity|].
  cbn [filter fst]. pose proof (H q c (or_introl eq_refl)) as Hq.
  destruct (Nat.eqb_spec q p); [lia|]. cbn [negb]. f_equal.
  apply IH. intros q' c' Hin. apply (H q' c'). now right.
Qed.

(** Both files are deleted and the directory is as it was. *)
Lemma unlink_both (fs : list (nat * content elev)) c1 c2 :
  let p := fresh elev fs in
  let q := fresh elev ((p, c1) :: fs) in
  unlinked q (unlinked p ((q, c2) :: (p, c1) :: fs)) = fs.
Proof.
  intros p q.
  assert (Hp : forall k c, In (k, c) fs -> (k < p)%nat)
    by (intros; eapply fresh_gt; eauto).
  assert (Hq : (p < q)%nat)
    by (apply (fresh_gt ((p, c1) :: fs) p c1); now left).
  cbn [filter fst].
  destruct (Nat.eqb_spec q p); [lia|].
  rewrite Nat.eqb_refl. cbn [negb filter fst].
  rewrite Nat.eqb_refl. cbn [negb].
  rewrite (unlinked_above fs p Hp).
  apply unlinked_above. intros k c Hin. specialize (Hp k c Hin). lia.
Qed.

(** The [try] body when every call returns. *)
Lemma try_body_succeeds p bytes dem t a b c d rc0 rc1 profile (w : world) :
  lookup elev p (files elev w) = Some (Tif elev bytes) ->
  read_raster bytes = Some (dem, t) ->
  plot_dem elev lib dem t = inr tt ->
  rowcol elev lib t a b = inr rc0 ->
  rowcol elev lib t c d = inr rc1 ->
  extract_cross_section dem (round_pixel rc0) (round_pixel rc1)
  = inr profile ->
  plot_cross_section elev lib profile = inr tt ->
  add_lwpolyline elev lib (points profile) = inr tt ->
  create_temp elev lib ".dxf" = inr tt ->
  saveas elev lib (points profile) = inr tt ->
  download_button elev lib (Some (Dxf elev (points profile))) = inr tt ->
  unlink elev lib p = inr tt ->
  unlink elev lib (fresh elev (files elev w)) = inr tt ->
  try_body p a b c d w
  = (inr tt,
     World elev
       (unlinked (fresh elev (files elev w))
          (unlinked p
             ((fresh elev (files elev w), Dxf elev (points profile))
              :: files elev w)))
       (log elev w ++
        [Rasterio_open elev p; St_pyplot_dem elev;
         St_write_pixel elev "Start Pixel" (round_pixel rc0);
         St_write_pixel elev "End Pixel" (round_pixel rc1);
         St_pyplot_cross elev profile;
         St_download_button elev (Some (Dxf elev (points profile)))])).
Proof.
  intros Hfile Hread Hplot H0 H1 Hx Hcross Hpoly Hmk Hsave Hdown Hu1 Hu2.
  unfold Page.try_body, rasterio_open, bind, emit_event, lift,
    named_temporary_file, os_unlink.
  cbn [files log].
  rewrite Hfile, Hread, Hplot, H0, H1, Hx, Hcross, Hpoly, Hmk, Hsave.
  cbn [files log]. rewrite lookup_head, Hdown.
  cbn [files log]. rewrite Hu1. cbn [files log]. rewrite Hu2.
  now rewrite <- !app_assoc.
Qed.

(** *** Files that were there before *)

Section Keeps.
Variable S : list (nat * content elev).

Lemma keeps_total {X} (m : M X) :
  (forall w, incl S (files elev w) -> incl S (files elev (snd (m w)))) ->
  keeps elev S (fun _ => True) m.
Proof. intros H w Hw. split; auto. Qed.

Lemma keeps_ret {X} (x : X) : keeps elev S (fun _ => True) (ret elev x).
Proof. apply keeps_total. auto. Qed.

Lemma keeps_lift {X} (r : exn + X) :
  keeps elev S (fun _ => True) (lift elev r).
Proof. apply keeps_total. auto. Qed.

Lemma keeps_emit ev : keeps elev S (fun _ => True) (emit_event elev ev).
Proof. apply keeps_total. auto. Qed.

Lemma keeps_bind {X Y} (Q : X -> Prop) (R : Y -> Prop)
    (m : M X) (k : X -> M Y) :
  keeps elev S Q m -> (forall x, Q x -> keeps elev S R (k x)) ->
  keeps elev S R (bind elev m k).
Proof.
  intros Hm Hk w Hw. destruct (Hm w Hw) as [Hi Hq]. unfold bind.
  destruct (m w) as [[e|x] w']; cbn [fst snd] in *.
  - split; [exact Hi | discriminate].
  - apply Hk; auto.
Qed.

Lemma keeps_try {Q R} (m : M unit) (h : exn -> M unit) :
  keeps elev S Q m -> (forall e, keeps elev S R (h e)) ->
  keeps elev S (fun _ => True) (try_except elev m h).
Proof.
  intros Hm Hh. apply keeps_total. intros w Hw.
  destruct (Hm w Hw) as [Hi _]. unfold try_except.
  destruct (m w) as [[e|x] w']; cbn [fst snd] in *; auto.
  now apply Hh.
Qed.

(** A new temporary file has a name above the names of [S]. *)
Lemma keeps_tmp sfx cnt wr :
  keeps elev S (fun p => forall q c, In (q, c) S -> (q < p)%nat)
    (named_temporary_file elev lib sfx cnt wr).
Proof.
  intros w Hw. unfold named_temporary_file.
  destruct (create_temp elev lib sfx); destruct wr; cbn [fst snd files];
    split; try exact Hw; try (apply incl_tl; exact Hw); try discriminate.
  intros x [= <-] q c Hin. eapply fresh_gt. apply Hw. exact Hin.
Qed.

(** [os.unlink] of a name that no file of [S] has. *)
Lemma keeps_unlink p :
  (forall q c, In (q, c) S -> (q < p)%nat) ->
  keeps elev S (fun _ => True) (os_unlink elev lib p).
Proof.
  intros Hp. apply keeps_total. intros w Hw. unfold os_unlink.
  destruct (unlink elev lib p); cbn [snd files]; auto.
  intros [q c] Hin. apply filter_In. split; [now apply Hw|].
  cbn [fst]. specialize (Hp q c Hin).
  destruct (Nat.eqb_spec q p); [lia | reflexivity].
Qed.

Lemma keeps_rasterio_open p :
  keeps elev S (fun _ => True) (rasterio_open elev read_raster p).
Proof.
  apply keeps_total. intros w Hw. unfold rasterio_open, bind, emit_event.
  cbn [files log].
  destruct (lookup elev p (files elev w)) as [[bytes|pl|]|];
    try destruct (read_raster bytes); cbn [snd files]; exact Hw.
Qed.

Lemma keeps_try_body p a b c d :
  (forall q cnt, In (q, cnt) S -> (q < p)%nat) ->
  keeps elev S (fun _ => True) (try_body p a b c d).
Proof.
  intros Hp. unfold Page.try_body.
  eapply keeps_bind; [apply keeps_rasterio_open|]. intros [dem t] _.
  eapply keeps_bind; [apply keeps_lift|]. intros _ _.
  eapply keeps_bind; [apply keeps_emit|]. intros _ _.
  eapply keeps_bind; [apply keeps_lift|]. intros rc0 _.
  eapply keeps_bind; [apply keeps_lift|]. intros rc1 _.
  eapply keeps_bind; [apply keeps_emit|]. intros _ _.
  eapply keeps_bind; [apply keeps_emit|]. intros _ _.
  eapply keeps_bind; [apply keeps_lift|]. intros profile _.
  eapply keeps_bind; [apply keeps_lift|]. intros _ _.
  eapply keeps_bind; [apply keeps_emit|]. intros _ _.
  eapply keeps_bind; [apply keeps_lift|]. intros _ _.
  eapply keeps_bind; [apply keeps_tmp|]. intros dxf Hdxf.
  eapply keeps_bind.
  { apply keeps_total. intros w Hw. unfold bind, lift, emit_event.
    destruct (download_button elev lib _); cbn [snd files]; exact Hw. }
  intros _ _.
  eapply keeps_bind; [apply (keeps_unlink p Hp)|]. intros _ _.
  apply (keeps_unlink dxf Hdxf).
Qed.

Lemma keeps_accepted upload a b c d :
  keeps elev S (fun _ => True) (accepted upload a b c d).
Proof.
  unfold Page.accepted.
  eapply keeps_bind; [apply keeps_lift|]. intros _ _.
  eapply keeps_bind; [apply keeps_emit|]. intros _ _.
  eapply keeps_bind; [apply keeps_tmp|]. intros p Hp.
  eapply keeps_try; [apply (keeps_try_body p a b c d Hp)|].
  intros e. apply keeps_emit.
Qed.

Lemma keeps_main uploaded sx sy ex ey :
  keeps elev S (fun _ => True) (main uploaded sx sy ex ey).
Proof.
  assert (Hvalid : forall v n,
            keeps elev S (fun _ => True)
              (is_valid_coordinate elev float_of_string v n)).
  { intros v n. unfold is_valid_coordinate.
    destruct (float_of_string v); [apply keeps_ret|].
    eapply keeps_bind; [apply keeps_emit|]. intros _ _. apply keeps_ret. }
  unfold Page.main.
  destruct uploaded as [upload|];
    destruct (forallb Py.truthy [sx; sy; ex; ey]).
  2-4: eapply keeps_bind; [first [apply keeps_ret | apply keeps_emit]|];
       intros _ _; first [apply keeps_ret | apply keeps_emit].
  eapply keeps_bind; [apply Hvalid|]. intros [a|] _;
    (eapply keeps_bind; [apply Hvalid|]); intros [b|] _;
    (eapply keeps_bind; [apply Hvalid|]); intros [c|] _;
    (eapply keeps_bind; [apply Hvalid|]); intros [d|] _;
    try apply keeps_ret.
  eapply keeps_bind; [apply keeps_lift|]. intros n1 _.
  eapply keeps_bind; [apply keeps_lift|]. intros n2 _.
  eapply keeps_bind; [apply keeps_lift|]. intros n3 _.
  eapply keeps_bind; [apply keeps_lift|]. intros n4 _.
  destruct (Nat.eqb n1 n2 && Nat.eqb n2 n3 && Nat.eqb n3 n4);
    [apply keeps_accepted | apply keeps_emit].
Qed.

End Keeps.

(** *** Missing and non-numeric inputs *)

(** The page without an upload or with an empty field. *)
Lemma main_waits uploaded sx sy ex ey (w : world) :
  uploaded = None \/ forallb Py.truthy [sx; sy; ex; ey] = false ->
  main uploaded sx sy ex ey w
  = (inr tt,
     World elev (files elev w)
       (log elev w ++
        match uploaded with
        | None => [St_info elev "Please upload a TIFF file."]
        | Some _ => []
        end ++
        if forallb Py.truthy [sx; sy; ex; ey] then []
        else [St_info elev "Please provide all coordinate inputs."])).
Proof.
  intros H. unfold Page.main, bind, ret, emit_event.
  destruct uploaded as [upload|];
    destruct (forallb Py.truthy [sx; sy; ex; ey]) eqn:E;
    cbn [files log app]; rewrite ?app_nil_r, <- ?app_assoc;
    try reflexivity.
  destruct H; discriminate.
Qed.

(** The page with a field that is not numeric. *)
Lemma main_non_numeric upload sx sy ex ey (w : world) :
  forallb Py.truthy [sx; sy; ex; ey] = true ->
  (exists s, In s [sx; sy; ex; ey] /\ float_of_string s = None) ->
  main (Some upload) sx sy ex ey w
  = (inr tt,
     World elev (files elev w)
       (log elev w ++
        field_errors elev float_of_string
          [(sx, "Start Easting"); (sy, "Start Northing");
           (ex, "End Easting"); (ey, "End Northing")]%string)).
Proof.
  intros Hall (s & Hin & Hs).
  unfold Page.main, field_errors. rewrite Hall.
  unfold is_valid_coordinate, bind, ret, emit_event.
  cbn [flat_map fst snd].
  destruct (float_of_string sx) as [a|] eqn:Ea;
    destruct (float_of_string sy) as [b|] eqn:Eb;
    destruct (float_of_string ex) as [c|] eqn:Ec;
    destruct (float_of_string ey) as [d|] eqn:Ed;
    cbn [files log app]; rewrite ?app_nil_r, <- ?app_assoc;
    try reflexivity.
  exfalso. simpl in Hin.
  destruct Hin as [<-|[<-|[<-|[<-|[]]]]]; congruence.
Qed.

End Facts.
End PageFacts.

Lemma digits_raise x e :
  get_integer_digits x = inl e ->
  finite x = false /\ (e = ValueError \/ e = OverflowError).
Proof. destruct x; cbn; intros [= <-]; auto. Qed.

Lemma digits_agree_same_digit_count a b c d :
  Page.digits_agree a b c d <-> same_digit_count a b c d.
Proof.
  unfold Page.digits_agree, same_digit_count.
  pose proof get_integer_digits_inr as G. split.
  - intros (n & Ha & Hb & Hc & Hd).
    apply G in Ha, Hb, Hc, Hd.
    destruct Ha, Hb, Hc, Hd. repeat split; auto. exists n. auto.
  - intros (Fa & Fb & Fc & Fd & n & Da & Db & Dc & Dd).
    exists n. repeat split; apply G; auto.
Qed.

Lemma digits_agree_eq a b c d n1 n2 n3 n4 :
  get_integer_digits a = inr n1 -> get_integer_digits b = inr n2 ->
  get_integer_digits c = inr n3 -> get_integer_digits d = inr n4 ->
  (Page.digits_agree a b c d
   <-> Nat.eqb n1 n2 && Nat.eqb n2 n3 && Nat.eqb n3 n4 = true).
Proof.
  intros Ha Hb Hc Hd. unfold Page.digits_agree.
  rewrite !andb_true_iff, !Nat.eqb_eq. rewrite Ha, Hb, Hc, Hd. split.
  - intros (n & E1 & E2 & E3 & E4). repeat split; congruence.
  - intros [[-> ->] ->]. exists n4. auto.
Qed.

Section RunCases.
Variable elev : Type.
Variable float_of_string : string -> option spec_float.
Variable read_raster :
  list Byte.byte -> option (Numpy.ndarray2 elev * Affine.affine).
Variable lib : Page.library elev.
Variable fs : list (nat * Page.content elev).
Variable upload : list Byte.byte.
Variables sx sy ex ey : string.
Variables a b c d : spec_float.
Hypothesis Hall : forallb Py.truthy [sx; sy; ex; ey] = true.
Hypothesis Ha : float_of_string sx = Some a.
Hypothesis Hb : float_of_string sy = Some b.
Hypothesis Hc : float_of_string ex = Some c.
Hypothesis Hd : float_of_string ey = Some d.

Local Abbreviation the_run :=
  (Page.run elev float_of_string read_raster lib fs (Some upload)
     sx sy ex ey).
Local Abbreviation the_accepted :=
  (Page.accepted elev read_raster lib upload a b c d (Page.World elev fs [])).

(** The three ways past the input checks: a coordinate that is not a
    number, a digit mismatch, the accepted branch. *)
Lemma numeric_cases :
  (exists e x, In x [a; b; c; d] /\ finite x = false /\
     (e = ValueError \/ e = OverflowError) /\
     ~ same_digit_count a b c d /\
     the_run = (inl e, Page.World elev fs [])) \/
  (finite a = true /\ finite b = true /\ finite c = true /\
   finite d = true /\ ~ same_digit_count a b c d /\
   the_run = (inr tt, Page.World elev fs [digit_message elev])) \/
  (same_digit_count a b c d /\ the_run = the_accepted).
Proof.
  unfold Page.run.
  rewrite (PageFacts.main_numeric elev float_of_string read_raster lib
             upload sx sy ex ey a b c d _ Hall Ha Hb Hc Hd).
  cbn [Page.files Page.log app].
  assert (Hraise : forall x e, get_integer_digits x = inl e ->
            In x [a; b; c; d] ->
            finite x = false /\ (e = ValueError \/ e = OverflowError) /\
            ~ same_digit_count a b c d).
  { intros x e Hx Hin. destruct (digits_raise x e Hx) as [Fx He].
    repeat split; auto.
    intros (Fa & Fb & Fc & Fd & _). simpl in Hin.
    destruct Hin as [<-|[<-|[<-|[<-|[]]]]]; congruence. }
  destruct (get_integer_digits a) as [e1|n1] eqn:Da.
  { left. exists e1, a. destruct (Hraise a e1 Da) as (? & ? & ?);
      simpl; auto 8. }
  destruct (get_integer_digits b) as [e2|n2] eqn:Db.
  { left. exists e2, b. destruct (Hraise b e2 Db) as (? & ? & ?);
      simpl; auto 8. }
  destruct (get_integer_digits c) as [e3|n3] eqn:Dc.
  { left. exists e3, c. destruct (Hraise c e3 Dc) as (? & ? & ?);
      simpl; auto 8. }
  destruct (get_integer_digits d) as [e4|n4] eqn:Dd.
  { left. exists e4, d. destruct (Hraise d e4 Dd) as (? & ? & ?);
      simpl; auto 10. }
  pose proof (digits_agree_eq a b c d n1 n2 n3 n4 Da Db Dc Dd) as Hagree.
  rewrite digits_agree_same_digit_count in Hagree.
  right.
  destruct (Nat.eqb n1 n2 && Nat.eqb n2 n3 && Nat.eqb n3 n4).
  - right. split; [apply Hagree; reflexivity | reflexivity].
  - left.
    apply get_integer_digits_inr in Da, Db, Dc, Dd.
    destruct Da, Db, Dc, Dd. repeat split; auto.
    intros Hs. apply Hagree in Hs. discriminate.
Qed.

(** What the accepted branch shows: the section length first, unless
    line 79 raises, and never the digit message. *)
Lemma accepted_shows :
  (In (Page.St_write_length elev a b c d) (Page.log elev (snd the_accepted))
   <-> exists len, section_length a b c d = inr len) /\
  ~ In (digit_message elev) (Page.log elev (snd the_accepted)).
Proof.
  rewrite (PageFacts.accepted_run elev read_raster lib upload a b c d).
  cbn [Page.files Page.log app].
  destruct (section_length a b c d) as [e|len].
  { cbn [snd Page.log]. split; [split|].
    - intros [].
    - intros [len H]. discriminate H.
    - intros []. }
  destruct (Page.create_temp elev lib ".tif") as [e|[]].
  { cbn [snd Page.log]. split; [split|].
    - eauto.
    - intros _. left. reflexivity.
    - intros [H|[]]. discriminate H. }
  destruct (Page.write_upload elev lib upload) as [e|[]].
  { cbn [snd Page.log]. split; [split|].
    - eauto.
    - intros _. left. reflexivity.
    - intros [H|[]]. discriminate H. }
  destruct (PageFacts.emits_try_block elev read_raster lib
              (Page.fresh elev fs) a b c d
              (Page.World elev
                 ((Page.fresh elev fs, Page.Tif elev upload) :: fs)
                 [Page.St_write_length elev a b c d]))
    as (l & Hl & Pl).
  rewrite Hl. cbn [Page.log]. split; [split|].
  - eauto.
  - intros _. left. reflexivity.
  - intros [H|H]; [discriminate H|].
    rewrite Forall_forall in Pl. apply (Pl _ H _ eq_refl).
Qed.

End RunCases.

(** C7: when the four strings are numeric, the page takes the branch of
    line 77, the block of lines 78 to 139, when the four values are
    numbers whose integer parts (of the absolute values) have one number
    of decimal digits; it shows the section length exactly in that case,
    provided line 79 does not overflow; it shows the digit message
    exactly when the values are numbers whose counts differ, and then
    shows nothing else.  Whenever the counts are not equal the raster is
    never opened and no file is created.  The values 12.5, 7.3, 100.1,
    8.9 have counts 2, 1, 3, 1, which are not one number; the values
    12.5, 34.2, 56.7, 78.9 all have count 2. *)
Theorem digit_gate (elev : Type)
    (float_of_string : string -> option spec_float)
    (read_raster :
       list Byte.byte -> option (Numpy.ndarray2 elev * Affine.affine))
    (lib : Page.library elev)
    (fs : list (nat * Page.content elev)) (upload : list Byte.byte)
    (sx sy ex ey : string) (a b c d : spec_float) :
  forallb Py.truthy [sx; sy; ex; ey] = true ->
  float_of_string sx = Some a -> float_of_string sy = Some b ->
  float_of_string ex = Some c -> float_of_string ey = Some d ->
  let r := Page.run elev float_of_string read_raster lib fs (Some upload)
             sx sy ex ey in
  (same_digit_count a b c d ->
   r = Page.accepted elev read_raster lib upload a b c d
         (Page.World elev fs [])) /\
  (In (Page.St_write_length elev a b c d) (Page.log elev (snd r))
   <-> same_digit_count a b c d /\
       exists len, section_length a b c d = inr len) /\
  (In (digit_message elev) (Page.log elev (snd r))
   <-> finite a = true /\ finite b = true /\ finite c = true /\
       finite d = true /\ ~ same_digit_count a b c d) /\
  (finite a = true -> finite b = true -> finite c = true ->
   finite d = true -> ~ same_digit_count a b c d ->
   r = (inr tt, Page.World elev fs [digit_message elev])) /\
  (~ same_digit_count a b c d ->
   Page.files elev (snd r) = fs /\
   forall p, ~ In (Page.Rasterio_open elev p) (Page.log elev (snd r))) /\
  (decade 2 (int_part Scenario.d12_5) /\ decade 1 (int_part Scenario.d7_3) /\
   decade 3 (int_part Scenario.d100_1) /\ decade 1 (int_part Scenario.d8_9) /\
   ~ same_digit_count Scenario.d12_5 Scenario.d7_3
       Scenario.d100_1 Scenario.d8_9) /\
  (decade 2 (int_part Scenario.d12_5) /\ decade 2 (int_part Scenario.d34_2) /\
   decade 2 (int_part Scenario.d56_7) /\ decade 2 (int_part Scenario.d78_9) /\
   same_digit_count Scenario.d12_5 Scenario.d34_2
     Scenario.d56_7 Scenario.d78_9).
Proof.
  intros Hall Ha Hb Hc Hd r.
  pose proof (numeric_cases elev float_of_string read_raster lib fs upload
                sx sy ex ey a b c d Hall Ha Hb Hc Hd) as Hcases.
  pose proof (accepted_shows elev read_raster lib fs upload a b c d)
    as [Hlen Hmsg].
  fold r in Hcases.
  assert (Hex : (decade 2 (int_part Scenario.d12_5) /\
                 decade 1 (int_part Scenario.d7_3) /\
                 decade 3 (int_part Scenario.d100_1) /\
                 decade 1 (int_part Scenario.d8_9) /\
                 ~ same_digit_count Scenario.d12_5 Scenario.d7_3
                     Scenario.d100_1 Scenario.d8_9) /\
                (decade 2 (int_part Scenario.d12_5) /\
                 decade 2 (int_part Scenario.d34_2) /\
                 decade 2 (int_part Scenario.d56_7) /\
                 decade 2 (int_part Scenario.d78_9) /\
                 same_digit_count Scenario.d12_5 Scenario.d34_2
                   Scenario.d56_7 Scenario.d78_9)).
  { assert (Hdec : (decade 2 (int_part Scenario.d12_5) /\
                    decade 1 (int_part Scenario.d7_3) /\
                    decade 3 (int_part Scenario.d100_1) /\
                    decade 1 (int_part Scenario.d8_9)) /\
                   (decade 2 (int_part Scenario.d34_2) /\
                    decade 2 (int_part Scenario.d56_7) /\
                    decade 2 (int_part Scenario.d78_9))).
    { unfold decade. vm_compute. intuition discriminate. }
    destruct Hdec as [(D1 & D2 & D3 & D4) (D5 & D6 & D7)].
    split; [split; [exact D1|split; [exact D2|split; [exact D3|split;
                                                       [exact D4|]]]]|].
    - intros Hs. apply digits_agree_same_digit_count in Hs.
      destruct Hs as (n & E1 & E2 & _). vm_compute in E1, E2. congruence.
    - split; [exact D1|split; [exact D5|split; [exact D6|split; [exact D7|]]]].
      repeat (split; [reflexivity|]). exists 2%nat. auto. }
  destruct Hcases
    as [(e & x & Hin & Fx & He & Hno & Hr)
       |[(Fa & Fb & Fc & Fd & Hno & Hr)|(Hsame & Hr)]];
    clearbody r; subst r; cbn [snd Page.log Page.files].
  - (* a coordinate is not a number *)
    assert (Hnf : ~ (finite a = true /\ finite b = true /\ finite c = true /\
                     finite d = true /\ ~ same_digit_count a b c d)).
    { intros (Fa & Fb & Fc & Fd & _). simpl in Hin.
      destruct Hin as [<-|[<-|[<-|[<-|[]]]]]; congruence. }
    split; [|split; [|split; [|split; [|split; [|exact Hex]]]]].
    + intros Hs. contradiction.
    + split; [intros [] | intros [Hs _]; contradiction].
    + split; [intros [] | intros H; contradiction].
    + intros Fa Fb Fc Fd _. exfalso. apply Hnf. auto.
    + intros _. split; [reflexivity | intros p []].
  - (* the counts differ *)
    split; [|split; [|split; [|split; [|split; [|exact Hex]]]]].
    + intros Hs. contradiction.
    + split; [intros [H|[]]; discriminate H | intros [Hs _]; contradiction].
    + split; [intros _; auto 6 | intros _; left; reflexivity].
    + intros. reflexivity.
    + intros _. split; [reflexivity | intros p [H|[]]; discriminate H].
  - (* the counts are equal *)
    split; [|split; [|split; [|split; [|split; [|exact Hex]]]]].
    + intros _. reflexivity.
    + split; [intros H; split; [exact Hsame | apply Hlen; exact H]
             | intros [_ H]; apply Hlen; exact H].
    + split; [intros H; contradiction
             | intros (_ & _ & _ & _ & Hn); contradiction].
    + intros _ _ _ _ Hn. contradiction.
    + intros Hn. contradiction.
Qed.

Lemma digit_gate_witness :
  let r := Scenario.run [] (Some Scenario.upload) "12.5" "34.2" "56.7" "78.9" in
  (same_digit_count Scenario.d12_5 Scenario.d34_2 Scenario.d56_7 Scenario.d78_9 ->
   r = Page.accepted Z Scenario.read_raster Scenario.lib Scenario.upload
         Scenario.d12_5 Scenario.d34_2 Scenario.d56_7 Scenario.d78_9
         (Page.World Z [] [])) /\
  (In (Page.St_write_length Z Scenario.d12_5 Scenario.d34_2
         Scenario.d56_7 Scenario.d78_9) (Page.log Z (snd r))
   <-> same_digit_count Scenario.d12_5 Scenario.d34_2
         Scenario.d56_7 Scenario.d78_9 /\
       exists len, section_length Scenario.d12_5 Scenario.d34_2
                     Scenario.d56_7 Scenario.d78_9 = inr len) /\
  (In (digit_message Z) (Page.log Z (snd r))
   <-> finite Scenario.d12_5 = true /\ finite Scenario.d34_2 = true /\
       finite Scenario.d56_7 = true /\ finite Scenario.d78_9 = true /\
       ~ same_digit_count Scenario.d12_5 Scenario.d34_2
           Scenario.d56_7 Scenario.d78_9) /\
  (finite Scenario.d12_5 = true -> finite Scenario.d34_2 = true ->
   finite Scenario.d56_7 = true -> finite Scenario.d78_9 = true ->
   ~ same_digit_count Scenario.d12_5 Scenario.d34_2
       Scenario.d56_7 Scenario.d78_9 ->
   r = (inr tt, Page.World Z [] [digit_message Z])) /\
  (~ same_digit_count Scenario.d12_5 Scenario.d34_2
       Scenario.d56_7 Scenario.d78_9 ->
   Page.files Z (snd r) = [] /\
   forall p, ~ In (Page.Rasterio_open Z p) (Page.log Z (snd r))) /\
  (decade 2 (int_part Scenario.d12_5) /\ decade 1 (int_part Scenario.d7_3) /\
   decade 3 (int_part Scenario.d100_1) /\ decade 1 (int_part Scenario.d8_9) /\
   ~ same_digit_count Scenario.d12_5 Scenario.d7_3
       Scenario.d100_1 Scenario.d8_9) /\
  (decade 2 (int_part Scenario.d12_5) /\ decade 2 (int_part Scenario.d34_2) /\
   decade 2 (int_part Scenario.d56_7) /\ decade 2 (int_part Scenario.d78_9) /\
   same_digit_count Scenario.d12_5 Scenario.d34_2
     Scenario.d56_7 Scenario.d78_9).
Proof.
  apply (digit_gate Z Scenario.float_of_string Scenario.read_raster
           Scenario.lib [] Scenario.upload "12.5" "34.2" "56.7" "78.9"
           Scenario.d12_5 Scenario.d34_2 Scenario.d56_7 Scenario.d78_9);
    reflexivity.
Defined.

Example digits_rejected :
  Scenario.run [] (Some Scenario.upload) "12.5" "7.3" "100.1" "8.9"
  = (inr tt,
     Page.World Z []
       [Page.St_error Z
          "All coordinates must have the same number of digits in their integer parts."]).
Proof. reflexivity. Qed.

Example digits_not_a_number :
  Scenario.run [] (Some Scenario.upload) "nan" "nan" "nan" "nan"
  = (inl ValueError, Page.World Z [] []) /\
  Scenario.run [] (Some Scenario.upload) "inf" "inf" "inf" "inf"
  = (inl OverflowError, Page.World Z [] []).
Proof. split; reflexivity. Qed.

Example digits_of_small_values :
  map get_integer_digits
    [S754_zero false; Scenario.d0_5; Scenario.dm0_5;
     S754_finite true 5 1; S754_finite false 1 10]
  = [inr 1%nat; inr 1%nat; inr 1%nat; inr 2%nat; inr 4%nat].
Proof. reflexivity. Qed.

Example digits_of_examples :
  map get_integer_digits
    [Scenario.d12_5; Scenario.d7_3; Scenario.d100_1; Scenario.d8_9]
  = [inr 2%nat; inr 1%nat; inr 3%nat; inr 1%nat] /\
  map get_integer_digits
    [Scenario.d12_5; Scenario.d34_2; Scenario.d56_7; Scenario.d78_9]
  = [inr 2%nat; inr 2%nat; inr 2%nat; inr 2%nat].
Proof. split; reflexivity. Qed.

(** Line 79 is outside the [try]: for the coordinates [2.0 ** 512] and
    its opposite the digit counts agree (155 digits), the square of the
    difference overflows, and OverflowError leaves the page before
    anything is shown. *)
Example section_length_overflows :
  get_integer_digits Scenario.d2p512 = inr 155%nat /\
  get_integer_digits Scenario.dm2p512 = inr 155%nat /\
  section_length Scenario.dm2p512 Scenario.dm2p512
                 Scenario.d2p512 Scenario.d2p512 = inl OverflowError /\
  Page.accepted Z Scenario.read_raster Scenario.lib Scenario.upload
    Scenario.dm2p512 Scenario.dm2p512 Scenario.d2p512 Scenario.d2p512
    (Page.World Z [] [])
  = (inl OverflowError, Page.World Z [] []).
Proof. repeat split; reflexivity. Qed.

(** C2, amended: when the line between the two pixels that [rowcol]
    returned has a pixel whose row is outside [[-h, h)] or whose column
    is outside [[-w, w)], [extract_cross_section] raises IndexError;
    and in a request that got that far (validation passed, line 79 did
    not overflow, the temporary file was created and the upload written
    into it, the raster decoded and was drawn) the handler reports the
    error, the page plots no profile and neither writes nor offers a DXF
    file. *)
Theorem out_of_range_fails (elev : Type)
    (float_of_string : string -> option spec_float)
    (read_raster :
       list Byte.byte -> option (Numpy.ndarray2 elev * Affine.affine))
    (lib : Page.library elev)
    (fs : list (nat * Page.content elev)) (upload : list Byte.byte)
    (sx sy ex ey : string) (a b c d len : spec_float)
    (dem : Numpy.ndarray2 elev) (t : Affine.affine) (rc0 rc1 : Z * Z) :
  forallb Py.truthy [sx; sy; ex; ey] = true ->
  float_of_string sx = Some a -> float_of_string sy = Some b ->
  float_of_string ex = Some c -> float_of_string ey = Some d ->
  Page.digits_agree a b c d ->
  section_length a b c d = inr len ->
  Page.create_temp elev lib ".tif" = inr tt ->
  Page.write_upload elev lib upload = inr tt ->
  read_raster upload = Some (dem, t) ->
  Page.plot_dem elev lib dem t = inr tt ->
  Page.rowcol elev lib t a b = inr rc0 ->
  Page.rowcol elev lib t c d = inr rc1 ->
  Exists (fun p => ~ in_index_range dem p)
         (Draw.path (round_pixel rc0) (round_pixel rc1)) ->
  extract_cross_section dem (round_pixel rc0) (round_pixel rc1)
  = inl IndexError /\
  Page.run elev float_of_string read_raster lib fs (Some upload) sx sy ex ey
  = (inr tt,
     Page.World elev ((Page.fresh elev fs, Page.Tif elev upload) :: fs)
       [Page.St_write_length elev a b c d;
        Page.Rasterio_open elev (Page.fresh elev fs);
        Page.St_pyplot_dem elev;
        Page.St_write_pixel elev "Start Pixel" (round_pixel rc0);
        Page.St_write_pixel elev "End Pixel" (round_pixel rc1);
        Page.St_error_processing elev IndexError]).
Proof.
  intros Hall Ha Hb Hc Hd (n & E1 & E2 & E3 & E4) Hlen Hmk Hwrite Hread
    Hplot H0 H1 Hout.
  assert (Hx : extract_cross_section dem (round_pixel rc0) (round_pixel rc1)
               = inl IndexError).
  { rewrite extract_cross_section_sample. now apply sample_out. }
  split; [exact Hx|].
  unfold Page.run.
  rewrite (PageFacts.main_numeric elev float_of_string read_raster lib
             upload sx sy ex ey a b c d _ Hall Ha Hb Hc Hd).
  rewrite E1, E2, E3, E4, !Nat.eqb_refl. cbn [andb].
  rewrite PageFacts.accepted_run, Hlen, Hmk, Hwrite.
  cbn [Page.files Page.log app]. unfold Page.try_except.
  rewrite (PageFacts.try_body_sampling_fails elev read_raster lib
             (Page.fresh elev fs) upload dem t a b c d rc0 rc1 IndexError);
    auto; cbn [Page.files]; apply PageFacts.lookup_head.
Qed.

Lemma out_of_range_fails_witness :
  extract_cross_section Scenario.dem (round_pixel (5, 5)) (round_pixel (1, 1))
  = inl IndexError /\
  Scenario.run [] (Some Scenario.upload) "5.5" "5.5" "1.5" "1.5"
  = (inr tt,
     Page.World Z [(Page.fresh Z [], Page.Tif Z Scenario.upload)]
       [Page.St_write_length Z Scenario.d5_5 Scenario.d5_5
          Scenario.d1_5 Scenario.d1_5;
        Page.Rasterio_open Z (Page.fresh Z []);
        Page.St_pyplot_dem Z;
        Page.St_write_pixel Z "Start Pixel" (round_pixel (5, 5));
        Page.St_write_pixel Z "End Pixel" (round_pixel (1, 1));
        Page.St_error_processing Z IndexError]).
Proof.
  apply (out_of_range_fails Z Scenario.float_of_string Scenario.read_raster
           Scenario.lib [] Scenario.upload "5.5" "5.5" "1.5" "1.5"
           Scenario.d5_5 Scenario.d5_5 Scenario.d1_5 Scenario.d1_5
           (S754_finite false 6369051672525773 (-50))
           Scenario.dem Affine.identity (5, 5) (1, 1));
    try reflexivity.
  - exists 1%nat. repeat split; reflexivity.
  - replace (Draw.path (round_pixel (5, 5)) (round_pixel (1, 1)))
      with [(5, 5); (4, 4); (3, 3); (2, 2); (1, 1)] by reflexivity.
    apply Exists_cons_hd. unfold in_index_range. simpl. lia.
Defined.

(** The page on a request that succeeds: the profile is drawn, the DXF
    polyline is offered, and both temporary files are deleted. *)
Example request_succeeds :
  Scenario.run [] (Some Scenario.upload) "0.5" "0.5" "1.5" "1.5"
  = (inr tt,
     Page.World Z []
       [Page.St_write_length Z Scenario.d0_5 Scenario.d0_5
          Scenario.d1_5 Scenario.d1_5;
        Page.Rasterio_open Z 1;
        Page.St_pyplot_dem Z;
        Page.St_write_pixel Z "Start Pixel" (0, 0);
        Page.St_write_pixel Z "End Pixel" (1, 1);
        Page.St_pyplot_cross Z [0; 11];
        Page.St_download_button Z
          (Some (Page.Dxf Z [(0%nat, 0); (1%nat, 11)]))]).
Proof. reflexivity. Qed.

(** The page on a pixel with a negative row: the profile is read from
    the opposite edge and exported. *)
Example request_wraps :
  Scenario.run [] (Some Scenario.upload) "0.5" "-0.5" "0.5" "0.5"
  = (inr tt,
     Page.World Z []
       [Page.St_write_length Z Scenario.d0_5 Scenario.dm0_5
          Scenario.d0_5 Scenario.d0_5;
        Page.Rasterio_open Z 1;
        Page.St_pyplot_dem Z;
        Page.St_write_pixel Z "Start Pixel" (-1, 0);
        Page.St_write_pixel Z "End Pixel" (0, 0);
        Page.St_pyplot_cross Z [10; 0];
        Page.St_download_button Z
          (Some (Page.Dxf Z [(0%nat, 10); (1%nat, 0)]))]).
Proof. reflexivity. Qed.

(** C3 fails on the page: the two [os.unlink] calls are the last
    statements of the [try] body, so an exception inside the body skips
    them.  Here the end points lie outside the 2 x 2 raster, the sampling
    step raises, the handler shows the error, and the temporary raster
    file is still in the directory when the request finishes. *)
Theorem temp_file_left_behind :
  Scenario.run [] (Some Scenario.upload) "12.5" "34.2" "56.7" "78.9"
  = (inr tt,
     Page.World Z [(1%nat, Page.Tif Z Scenario.upload)]
       [Page.St_write_length Z Scenario.d12_5 Scenario.d34_2
          Scenario.d56_7 Scenario.d78_9;
        Page.Rasterio_open Z 1;
        Page.St_pyplot_dem Z;
        Page.St_write_pixel Z "Start Pixel" (34, 12);
        Page.St_write_pixel Z "End Pixel" (78, 56);
        Page.St_error_processing Z IndexError]).
Proof. reflexivity. Qed.

(** The same leak when the upload is not a raster at all. *)
Example temp_file_left_behind_bad_upload :
  Scenario.run [] (Some [Byte.x00]) "0.5" "0.5" "1.5" "1.5"
  = (inr tt,
     Page.World Z [(1%nat, Page.Tif Z [Byte.x00])]
       [Page.St_write_length Z Scenario.d0_5 Scenario.d0_5
          Scenario.d1_5 Scenario.d1_5;
        Page.Rasterio_open Z 1;
        Page.St_error_processing Z RasterioIOError]).
Proof. reflexivity. Qed.

(** The same leak after the DXF file is written: when the download
    button raises, both temporary files stay. *)
Example temp_files_left_behind_download :
  Page.run Z Scenario.float_of_string Scenario.read_raster
    (Page.Library Z (Rasterio.rowcol (fun _ => inr (- 2 ^ 31)))
       (fun _ => inr tt) (fun _ => inr tt) (fun _ _ => inr tt)
       (fun _ => inr tt) (fun _ => inr tt) (fun _ => inr tt)
       (fun _ => inl (Raised "StreamlitAPIException")) (fun _ => inr tt))
    [] (Some Scenario.upload) "0.5" "0.5" "1.5" "1.5"
  = (inr tt,
     Page.World Z
       [(2%nat, Page.Dxf Z [(0%nat, 0); (1%nat, 11)]);
        (1%nat, Page.Tif Z Scenario.upload)]
       [Page.St_write_length Z Scenario.d0_5 Scenario.d0_5
          Scenario.d1_5 Scenario.d1_5;
        Page.Rasterio_open Z 1;
        Page.St_pyplot_dem Z;
        Page.St_write_pixel Z "Start Pixel" (0, 0);
        Page.St_write_pixel Z "End Pixel" (1, 1);
        Page.St_pyplot_cross Z [0; 11];
        Page.St_error_processing Z (Raised "StreamlitAPIException")]).
Proof. reflexivity. Qed.

(** X12: without an upload, or with an empty coordinate field, the page
    only asks for what is missing (the upload first, then the inputs);
    it validates nothing, opens nothing and creates no file. *)
Theorem page_waits_for_inputs (elev : Type)
    (float_of_string : string -> option spec_float)
    (read_raster :
       list Byte.byte -> option (Numpy.ndarray2 elev * Affine.affine))
    (lib : Page.library elev)
    (fs : list (nat * Page.content elev))
    (uploaded_file : option (list Byte.byte)) (sx sy ex ey : string) :
  uploaded_file = None \/ forallb Py.truthy [sx; sy; ex; ey] = false ->
  Page.run elev float_of_string read_raster lib fs uploaded_file sx sy ex ey
  = (inr tt,
     Page.World elev fs
       (match uploaded_file with
        | None => [Page.St_info elev "Please upload a TIFF file."]
        | Some _ => []
        end ++
        if forallb Py.truthy [sx; sy; ex; ey] then []
        else [Page.St_info elev "Please provide all coordinate inputs."])).
Proof.
  intros H. unfold Page.run.
  now rewrite (PageFacts.main_waits elev float_of_string read_raster lib
                 _ _ _ _ _ _ H).
Qed.

Lemma page_waits_for_inputs_witness :
  Scenario.run [] None "12.5" "" "56.7" "78.9"
  = (inr tt,
     Page.World Z []
       ([Page.St_info Z "Please upload a TIFF file."] ++
        if forallb Py.truthy ["12.5"; ""; "56.7"; "78.9"]%string then []
        else [Page.St_info Z "Please provide all coordinate inputs."])).
Proof.
  apply (page_waits_for_inputs Z Scenario.float_of_string
           Scenario.read_raster Scenario.lib [] None "12.5" "" "56.7" "78.9").
  left. reflexivity.
Defined.

(** X13: with an upload and four non-empty fields of which at least one
    is not numeric, the page shows one message per field that is not
    numeric, in the order start easting, start northing, end easting,
    end northing, and does nothing else: no digit check, no file. *)
Theorem non_numeric_reported (elev : Type)
    (float_of_string : string -> option spec_float)
    (read_raster :
       list Byte.byte -> option (Numpy.ndarray2 elev * Affine.affine))
    (lib : Page.library elev)
    (fs : list (nat * Page.content elev)) (upload : list Byte.byte)
    (sx sy ex ey : string) :
  forallb Py.truthy [sx; sy; ex; ey] = true ->
  (exists s, In s [sx; sy; ex; ey] /\ float_of_string s = None) ->
  Page.run elev float_of_string read_raster lib fs (Some upload) sx sy ex ey
  = (inr tt,
     Page.World elev fs
       (field_errors elev float_of_string
          [(sx, "Start Easting"); (sy, "Start Northing");
           (ex, "End Easting"); (ey, "End Northing")]%string)).
Proof.
  intros Hall Hbad. unfold Page.run.
  now rewrite (PageFacts.main_non_numeric elev float_of_string read_raster
                 lib upload sx sy ex ey _ Hall Hbad).
Qed.

Lemma non_numeric_reported_witness :
  Scenario.run [] (Some Scenario.upload) "abc" "34.2" "56.7" "12,5"
  = (inr tt,
     Page.World Z []
       (field_errors Z Scenario.float_of_string
          [("abc", "Start Easting"); ("34.2", "Start Northing");
           ("56.7", "End Easting"); ("12,5", "End Northing")]%string)).
Proof.
  apply (non_numeric_reported Z Scenario.float_of_string Scenario.read_raster
           Scenario.lib [] Scenario.upload "abc" "34.2" "56.7" "12,5").
  - reflexivity.
  - exists "abc"%string. split; [left; reflexivity | reflexivity].
Defined.

Example non_numeric_messages :
  field_errors Z Scenario.float_of_string
    [("abc", "Start Easting"); ("34.2", "Start Northing");
     ("56.7", "End Easting"); ("12,5", "End Northing")]%string
  = [Page.St_error Z "Start Easting must be a numeric value";
     Page.St_error Z "End Northing must be a numeric value"].
Proof. reflexivity. Qed.

(** X14: when validation passes, line 79 does not overflow, the upload
    is written to its temporary file, the raster decodes, [rowcol]
    returns for both points, both end pixels are within the index range
    numpy accepts, and each of the calls that draw, build, create, save,
    offer and delete returns, the request succeeds: the page draws the
    raster, writes the two pixels, plots the profile, offers the
    polyline [(i, profile[i])] as a DXF file, deletes both temporary
    files and leaves the directory as it found it. *)
Theorem request_succeeds_in_range (elev : Type)
    (float_of_string : string -> option spec_float)
    (read_raster :
       list Byte.byte -> option (Numpy.ndarray2 elev * Affine.affine))
    (lib : Page.library elev)
    (fs : list (nat * Page.content elev)) (upload : list Byte.byte)
    (sx sy ex ey : string) (a b c d len : spec_float)
    (dem : Numpy.ndarray2 elev) (t : Affine.affine) (rc0 rc1 : Z * Z) :
  forallb Py.truthy [sx; sy; ex; ey] = true ->
  float_of_string sx = Some a -> float_of_string sy = Some b ->
  float_of_string ex = Some c -> float_of_string ey = Some d ->
  Page.digits_agree a b c d ->
  section_length a b c d = inr len ->
  Page.create_temp elev lib ".tif" = inr tt ->
  Page.write_upload elev lib upload = inr tt ->
  read_raster upload = Some (dem, t) ->
  Page.plot_dem elev lib dem t = inr tt ->
  Page.rowcol elev lib t a b = inr rc0 ->
  Page.rowcol elev lib t c d = inr rc1 ->
  in_index_range dem (round_pixel rc0) ->
  in_index_range dem (round_pixel rc1) ->
  let profile :=
    profile_of dem (Draw.path (round_pixel rc0) (round_pixel rc1)) in
  Page.plot_cross_section elev lib profile = inr tt ->
  Page.add_lwpolyline elev lib (points profile) = inr tt ->
  Page.create_temp elev lib ".dxf" = inr tt ->
  Page.saveas elev lib (points profile) = inr tt ->
  Page.download_button elev lib (Some (Page.Dxf elev (points profile)))
  = inr tt ->
  Page.unlink elev lib (Page.fresh elev fs) = inr tt ->
  Page.unlink elev lib
    (Page.fresh elev ((Page.fresh elev fs, Page.Tif elev upload) :: fs))
  = inr tt ->
  extract_cross_section dem (round_pixel rc0) (round_pixel rc1)
  = inr profile /\
  Page.run elev float_of_string read_raster lib fs (Some upload) sx sy ex ey
  = (inr tt,
     Page.World elev fs
       [Page.St_write_length elev a b c d;
        Page.Rasterio_open elev (Page.fresh elev fs);
        Page.St_pyplot_dem elev;
        Page.St_write_pixel elev "Start Pixel" (round_pixel rc0);
        Page.St_write_pixel elev "End Pixel" (round_pixel rc1);
        Page.St_pyplot_cross elev profile;
        Page.St_download_button elev
          (Some (Page.Dxf elev (points profile)))]).
Proof.
  intros Hall Ha Hb Hc Hd (n & E1 & E2 & E3 & E4) Hlen Hmk Hwrite Hread
    Hplot H0 H1 Hp0 Hp1 profile Hcross Hpoly Hmk2 Hsave Hdown Hu1 Hu2.
  assert (Hx : extract_cross_section dem (round_pixel rc0) (round_pixel rc1)
               = inr profile).
  { rewrite extract_cross_section_sample.
    apply sample_wrapped. now apply path_in_index_range. }
  split; [exact Hx|].
  unfold Page.run.
  rewrite (PageFacts.main_numeric elev float_of_string read_raster lib
             upload sx sy ex ey a b c d _ Hall Ha Hb Hc Hd).
  rewrite E1, E2, E3, E4, !Nat.eqb_refl. cbn [andb].
  rewrite PageFacts.accepted_run, Hlen, Hmk, Hwrite.
  cbn [Page.files Page.log app]. unfold Page.try_except.
  rewrite (PageFacts.try_body_succeeds elev read_raster lib
             (Page.fresh elev fs) upload dem t a b c d rc0 rc1 profile);
    auto; [|cbn [Page.files]; apply PageFacts.lookup_head].
  cbn [Page.files Page.log app]. f_equal. f_equal.
  apply PageFacts.unlink_both.
Qed.

Lemma request_succeeds_in_range_witness :
  let profile :=
    profile_of Scenario.dem
      (Draw.path (round_pixel (0, 0)) (round_pixel (1, 1))) in
  extract_cross_section Scenario.dem (round_pixel (0, 0)) (round_pixel (1, 1))
  = inr profile /\
  Scenario.run [] (Some Scenario.upload) "0.5" "0.5" "1.5" "1.5"
  = (inr tt,
     Page.World Z []
       [Page.St_write_length Z Scenario.d0_5 Scenario.d0_5
          Scenario.d1_5 Scenario.d1_5;
        Page.Rasterio_open Z (Page.fresh Z []);
        Page.St_pyplot_dem Z;
        Page.St_write_pixel Z "Start Pixel" (round_pixel (0, 0));
        Page.St_write_pixel Z "End Pixel" (round_pixel (1, 1));
        Page.St_pyplot_cross Z profile;
        Page.St_download_button Z (Some (Page.Dxf Z (points profile)))]).
Proof.
  apply (request_succeeds_in_range Z Scenario.float_of_string
           Scenario.read_raster Scenario.lib [] Scenario.upload
           "0.5" "0.5" "1.5" "1.5"
           Scenario.d0_5 Scenario.d0_5 Scenario.d1_5 Scenario.d1_5
           (S754_finite false 6369051672525773 (-52))
           Scenario.dem Affine.identity (0, 0) (1, 1));
    try reflexivity.
  - exists 1%nat. repeat split; reflexivity.
  - unfold in_index_range, round_pixel, Py.int_int, Py.round_int. simpl. lia.
  - unfold in_index_range, round_pixel, Py.int_int, Py.round_int. simpl. lia.
Defined.

Lemma pow2_raise x e : B64.pow2 x = inl e -> e = OverflowError.
Proof.
  unfold B64.pow2. destruct x; try discriminate.
  destruct (B64.mul _ _); congruence.
Qed.

Lemma section_length_raise a b c d e :
  section_length a b c d = inl e -> e = OverflowError.
Proof.
  unfold section_length.
  destruct (B64.pow2 (B64.sub c a)) as [e1|dx2] eqn:E1.
  { intros [= <-]. exact (pow2_raise _ _ E1). }
  destruct (B64.pow2 (B64.sub d b)) as [e2|dy2] eqn:E2; [|discriminate].
  intros [= <-]. exact (pow2_raise _ _ E2).
Qed.

(** X15: an exception leaves the page only from the code before the
    [try]: from [int] on a coordinate that parsed as NaN or as an
    infinity (ValueError or OverflowError, nothing shown or created),
    from a square of line 79 that is out of range (OverflowError, nothing
    shown or created), or from lines 83 to 85: from the creation of the
    temporary file (the length is shown, no file is created) or from
    writing the upload into it (the length is shown and the file
    stays).  Every exception raised inside the [try] block is caught. *)
Theorem run_raises_before_try (elev : Type)
    (float_of_string : string -> option spec_float)
    (read_raster :
       list Byte.byte -> option (Numpy.ndarray2 elev * Affine.affine))
    (lib : Page.library elev)
    (fs : list (nat * Page.content elev))
    (uploaded_file : option (list Byte.byte)) (sx sy ex ey : string)
    (e : exn) :
  let r := Page.run elev float_of_string read_raster lib fs uploaded_file
             sx sy ex ey in
  fst r = inl e ->
  exists upload a b c d,
    uploaded_file = Some upload /\
    forallb Py.truthy [sx; sy; ex; ey] = true /\
    float_of_string sx = Some a /\ float_of_string sy = Some b /\
    float_of_string ex = Some c /\ float_of_string ey = Some d /\
    ((* int(abs(float(num))) on a value that is not a number *)
     ((exists x, In x [a; b; c; d] /\ finite x = false) /\
      (e = ValueError \/ e = OverflowError) /\
      r = (inl e, Page.World elev fs [])) \/
     (* line 79 *)
     (same_digit_count a b c d /\
      section_length a b c d = inl e /\ e = OverflowError /\
      r = (inl e, Page.World elev fs [])) \/
     (* lines 83 to 85 *)
     (same_digit_count a b c d /\
      (exists len, section_length a b c d = inr len) /\
      ((Page.create_temp elev lib ".tif" = inl e /\
        r = (inl e,
             Page.World elev fs [Page.St_write_length elev a b c d])) \/
       (Page.create_temp elev lib ".tif" = inr tt /\
        Page.write_upload elev lib upload = inl e /\
        r = (inl e,
             Page.World elev
               ((Page.fresh elev fs, Page.Unfinished elev) :: fs)
               [Page.St_write_length elev a b c d]))))).
Proof.
  intros r. subst r. unfold Page.run.
  destruct uploaded_file as [upload|] eqn:Eu.
  2: { rewrite PageFacts.main_waits by auto. discriminate. }
  destruct (forallb Py.truthy [sx; sy; ex; ey]) eqn:Hall.
  2: { rewrite PageFacts.main_waits by auto. discriminate. }
  destruct (float_of_string sx) as [a|] eqn:Ea.
  2: { rewrite PageFacts.main_non_numeric; auto; [discriminate|].
       exists sx. simpl. auto. }
  destruct (float_of_string sy) as [b|] eqn:Eb.
  2: { rewrite PageFacts.main_non_numeric; auto; [discriminate|].
       exists sy. simpl. auto. }
  destruct (float_of_string ex) as [c|] eqn:Ec.
  2: { rewrite PageFacts.main_non_numeric; auto; [discriminate|].
       exists ex. simpl. auto. }
  destruct (float_of_string ey) as [d|] eqn:Ed.
  2: { rewrite PageFacts.main_non_numeric; auto; [discriminate|].
       exists ey. simpl. auto 6. }
  intros He. exists upload, a, b, c, d.
  do 6 (split; [reflexivity|]).
  destruct (numeric_cases elev float_of_string read_raster lib fs upload
              sx sy ex ey a b c d Hall Ea Eb Ec Ed)
    as [(e' & x & Hin & Fx & Hk & _ & Hr)
       |[(_ & _ & _ & _ & _ & Hr)|(Hsame & Hr)]];
    unfold Page.run in Hr; rewrite Hr in He |- *; cbn [fst] in He.
  - injection He as ->. left. eauto 6.
  - discriminate He.
  - right. revert He.
    rewrite (PageFacts.accepted_run elev read_raster lib upload a b c d).
    cbn [Page.files Page.log app].
    destruct (section_length a b c d) as [e1|len] eqn:El.
    { intros [= ->]. left.
      pose proof (section_length_raise a b c d e El). auto. }
    destruct (Page.create_temp elev lib ".tif") as [e2|[]] eqn:Em.
    { intros [= ->]. right. eauto 6. }
    destruct (Page.write_upload elev lib upload) as [e2|[]] eqn:Ew.
    { intros [= ->]. right. eauto 8. }
    intros He. exfalso.
    match type of He with
    | fst (Page.try_except _ ?m _ ?w) = _ =>
        destruct (PageFacts.try_except_emit elev m w) as [Hfst _]
    end.
    rewrite Hfst in He. discriminate He.
Qed.

Lemma run_raises_before_try_witness :
  let r := Scenario.run [] (Some Scenario.upload) "12.5" "nan" "56.7" "inf" in
  exists upload a b c d,
    Some Scenario.upload = Some upload /\
    forallb Py.truthy ["12.5"; "nan"; "56.7"; "inf"]%string = true /\
    Scenario.float_of_string "12.5" = Some a /\
    Scenario.float_of_string "nan" = Some b /\
    Scenario.float_of_string "56.7" = Some c /\
    Scenario.float_of_string "inf" = Some d /\
    (((exists x, In x [a; b; c; d] /\ finite x = false) /\
      (ValueError = ValueError \/ ValueError = OverflowError) /\
      r = (inl ValueError, Page.World Z [] [])) \/
     (same_digit_count a b c d /\
      section_length a b c d = inl ValueError /\
      ValueError = OverflowError /\
      r = (inl ValueError, Page.World Z [] [])) \/
     (same_digit_count a b c d /\
      (exists len, section_length a b c d = inr len) /\
      ((Page.create_temp Z Scenario.lib ".tif" = inl ValueError /\
        r = (inl ValueError,
             Page.World Z [] [Page.St_write_length Z a b c d])) \/
       (Page.create_temp Z Scenario.lib ".tif" = inr tt /\
        Page.write_upload Z Scenario.lib upload = inl ValueError /\
        r = (inl ValueError,
             Page.World Z [(Page.fresh Z [], Page.Unfinished Z)]
               [Page.St_write_length Z a b c d]))))).
Proof.
  apply (run_raises_before_try Z Scenario.float_of_string
           Scenario.read_raster Scenario.lib [] (Some Scenario.upload)
           "12.5" "nan" "56.7" "inf" ValueError).
  reflexivity.
Defined.

(** The three places an exception leaves the page from. *)
Example run_raises_examples :
  Scenario.run [] (Some Scenario.upload) "12.5" "nan" "56.7" "inf"
  = (inl ValueError, Page.World Z [] []) /\
  Page.run Z
    (fun s => if String.eqb s "a" then Some Scenario.dm2p512
              else Some Scenario.d2p512)
    Scenario.read_raster Scenario.lib [] (Some Scenario.upload)
    "a" "a" "b" "b"
  = (inl OverflowError, Page.World Z [] []) /\
  Page.run Z Scenario.float_of_string Scenario.read_raster
    (Page.Library Z (Rasterio.rowcol (fun _ => inr (- 2 ^ 31)))
       (fun _ => inr tt) (fun _ => inl (Raised "OSError"))
       (fun _ _ => inr tt) (fun _ => inr tt) (fun _ => inr tt)
       (fun _ => inr tt) (fun _ => inr tt) (fun _ => inr tt))
    [] (Some Scenario.upload) "0.5" "0.5" "1.5" "1.5"
  = (inl (Raised "OSError"),
     Page.World Z [(1%nat, Page.Unfinished Z)]
       [Page.St_write_length Z Scenario.d0_5 Scenario.d0_5
          Scenario.d1_5 Scenario.d1_5]).
Proof. repeat split; reflexivity. Qed.

(** X16: the page never removes or changes a file that was in the
    directory before the request: its two [os.unlink] calls only reach
    the temporary files of the request itself. *)
Theorem run_keeps_directory (elev : Type)
    (float_of_string : string -> option spec_float)
    (read_raster :
       list Byte.byte -> option (Numpy.ndarray2 elev * Affine.affine))
    (lib : Page.library elev)
    (fs : list (nat * Page.content elev))
    (uploaded_file : option (list Byte.byte)) (sx sy ex ey : string)
    (p : nat) (c : Page.content elev) :
  In (p, c) fs ->
  In (p, c)
     (Page.files elev
        (snd (Page.run elev float_of_string read_raster lib fs uploaded_file
                sx sy ex ey))).
Proof.
  intros Hin. unfold Page.run.
  destruct (PageFacts.keeps_main elev float_of_string read_raster lib fs
              uploaded_file sx sy ex ey (Page.World elev fs [])
              (incl_refl _)) as [H _].
  apply H, Hin.
Qed.

Lemma run_keeps_directory_witness :
  In (7%nat, Page.Dxf Z [(0%nat, 5)])
     (Page.files Z
        (snd (Scenario.run [(7%nat, Page.Dxf Z [(0%nat, 5)])]
                (Some Scenario.upload) "0.5" "0.5" "1.5" "1.5"))).
Proof.
  apply (run_keeps_directory Z Scenario.float_of_string Scenario.read_raster
           Scenario.lib [(7%nat, Page.Dxf Z [(0%nat, 5)])]
           (Some Scenario.upload) "0.5" "0.5" "1.5" "1.5").
  left. reflexivity.
Defined.

Example run_in_used_directory :
  Scenario.run [(7%nat, Page.Dxf Z [(0%nat, 5)])]
    (Some Scenario.upload) "0.5" "0.5" "1.5" "1.5"
  = (inr tt,
     Page.World Z [(7%nat, Page.Dxf Z [(0%nat, 5)])]
       [Page.St_write_length Z Scenario.d0_5 Scenario.d0_5
          Scenario.d1_5 Scenario.d1_5;
        Page.Rasterio_open Z 8;
        Page.St_pyplot_dem Z;
        Page.St_write_pixel Z "Start Pixel" (0, 0);
        Page.St_write_pixel Z "End Pixel" (1, 1);
        Page.St_pyplot_cross Z [0; 11];
        Page.St_download_button Z
          (Some (Page.Dxf Z [(0%nat, 0); (1%nat, 11)]))]).
Proof. reflexivity. Qed.
